(** * Customer frequency / recency / monetary-value analysis

    A shallow embedding of the analytical pipeline of
    [FreRecAnalysis.py] (class [FrequencyRecency]) and [MVAnalysis.py]
    (class [MonetaryValue]), and the properties of it that the design
    document states.

    Conventions of the embedding:
    - a pandas [DataFrame] is a list of rows; the frames that the Python
      code passes around by reference live in a [store], and the methods
      that touch them are written in a state-and-exception monad, so that
      [DataFrame.copy()] and in-place column assignment are different
      things;
    - a cell of a frame is a Python value ([cell]); missing values keep
      their three Python spellings ([None], [nan], [NaT]);
    - a number is written as the rational that it is ([Q]): a float cell
      and a total hold the exact value of a binary64 number.  The float
      arithmetic itself, [int(len(..) * (top_percent / 100))] and the
      additions of [groupby(..).sum()], is IEEE binary64 with the standard
      library's [SpecFloat]; the sum of an integer column is the wrapping
      sum of [int64];
    - text is a string of bytes, the UTF-8 encoding of the Python [str];
    - what pandas and Python do to the *contents* of strings (parsing a
      date in a given format, parsing a number, printing a float, which
      characters beyond ASCII are digits) is a parameter of the
      development, the class [Pandas]. *)

From Stdlib Require Import ZArith QArith List String Ascii Bool Lia.
From Stdlib Require Import Permutation DecimalString Lqa Sorted.
From Stdlib Require Import Floats.SpecFloat Floats.FloatOps.
Import ListNotations.

Local Open Scope string_scope.
Local Open Scope Z_scope.

(** ** Python values *)

Module Py.

(** [pandas.Timestamp], by its calendar fields. *)
Record Timestamp := mkTimestamp {
  year : Z; month : Z; day : Z; hour : Z; minute : Z; second : Z
}.

Definition ts_fields (t : Timestamp) : list Z :=
  [year t; month t; day t; hour t; minute t; second t].

(** Lexicographic order on the fields: the order of the instants. *)
Fixpoint lex_leb (a b : list Z) : bool :=
  match a, b with
  | [], _ => true
  | _ :: _, [] => false
  | x :: a', y :: b' =>
      if x <? y then true else if y <? x then false else lex_leb a' b'
  end.

Definition ts_leb (a b : Timestamp) : bool := lex_leb (ts_fields a) (ts_fields b).

Definition ts_max (a b : Timestamp) : Timestamp := if ts_leb a b then b else a.

(** A cell of a data frame. *)
Inductive cell :=
| CStr (s : string)
| CInt (z : Z)
| CFloat (q : Q)
| CTime (t : Timestamp)
| CNone
| CNaN
| CNaT.

(** [pd.isna] / [pd.notna]. *)
Definition isna (c : cell) : bool :=
  match c with CNone | CNaN | CNaT => true | _ => false end.

Definition notna (c : cell) : bool := negb (isna c).

(** Exceptions that the modelled code can raise. *)
Inductive exn :=
| KeyError (key : string)
| ValueError (msg : string)
| OverflowError (msg : string)
| AttributeError (msg : string)
| TypeError (msg : string).

Inductive result (A : Type) :=
| Ok (a : A)
| Raise (e : exn).
Arguments Ok {A} a.
Arguments Raise {A} e.

(** The ASCII digits [0] to [9]. *)
Definition is_digit (c : ascii) : bool :=
  let n := nat_of_ascii c in (48 <=? n)%nat && (n <=? 57)%nat.

(** Text made of ASCII digits only, and text made of ASCII characters
    only. *)
Fixpoint all_digits (s : string) : bool :=
  match s with
  | EmptyString => true
  | String c s' => is_digit c && all_digits s'
  end.

Fixpoint is_ascii (s : string) : bool :=
  match s with
  | EmptyString => true
  | String c s' => (nat_of_ascii c <? 128)%nat && is_ascii s'
  end.

(** [str(int)]. *)
Definition str_int (z : Z) : string := NilZero.string_of_int (Z.to_int z).

(** Zero-padded decimal field, as in [Timestamp.__str__]. *)
Fixpoint pad_left (n : nat) (s : string) : string :=
  match n with
  | O => s
  | S n' => if (String.length s <=? n')%nat then pad_left n' ("0" ++ s) else s
  end.

Definition zfill (width : nat) (z : Z) : string := pad_left width (str_int z).

(** [str(Timestamp)]: [YYYY-MM-DD HH:MM:SS]. *)
Definition str_timestamp (t : Timestamp) : string :=
  zfill 4 (year t) ++ "-" ++ zfill 2 (month t) ++ "-" ++ zfill 2 (day t) ++ " " ++
  zfill 2 (hour t) ++ ":" ++ zfill 2 (minute t) ++ ":" ++ zfill 2 (second t).

End Py.
Export Py.

(** ** What the library does with the text of a cell

    [strptime] is [pd.to_datetime(.., format="%m/%d/%y %I:%M %p")] on one
    string, [None] when the string does not match the format;
    [parse_numeric] is [pd.to_numeric] on one string: the [int] that it
    reads, or the value of the finite [float] that it reads, [None] when
    the string is not a number; [str_float] is [str] of a float; [object_max]
    is the [max] reduction of a column that is not of datetime type;
    [unicode_digit] tells of a code point above 127 whether the Unicode
    database of the interpreter calls it a digit (Numeric_Type Digit or
    Decimal), which is what [str.isdigit()] asks of it. *)
Class Pandas := {
  strptime : string -> option Timestamp;
  parse_numeric : string -> option (Z + Q);
  str_float : Q -> string;
  object_max : list cell -> cell;
  unicode_digit : Z -> bool
}.

Section PythonStr.
Context `{Pandas}.

(** [str.isdigit()]: at least one character, and every character a digit.
    The bytes are read as UTF-8: a byte below 128 is a character of its
    own, a digit when it is one of [0] to [9]; a lead byte announces one to
    three continuation bytes, and the code point that they spell is a digit
    when the Unicode database says so.  [pending] is the code point being
    read and the number of continuation bytes still to come after the next
    one.  Bytes that are not well-formed UTF-8 are the encoding of no
    [str]. *)
Fixpoint all_digits_from (pending : option (Z * nat)) (s : string) : bool :=
  match s with
  | EmptyString => match pending with None => true | Some _ => false end
  | String c s' =>
      let n := Z.of_nat (nat_of_ascii c) in
      match pending with
      | None =>
          if n <? 128 then is_digit c && all_digits_from None s'
          else if n <? 192 then false
          else if n <? 224 then all_digits_from (Some (n - 192, 0%nat)) s'
          else if n <? 240 then all_digits_from (Some (n - 224, 1%nat)) s'
          else if n <? 248 then all_digits_from (Some (n - 240, 2%nat)) s'
          else false
      | Some (code, more) =>
          if (128 <=? n) && (n <? 192) then
            let code' := 64 * code + (n - 128) in
            match more with
            | O => (128 <=? code') && unicode_digit code' && all_digits_from None s'
            | S more' => all_digits_from (Some (code', more')) s'
            end
          else false
      end
  end.

Definition isdigit (s : string) : bool :=
  match s with
  | EmptyString => false
  | _ => all_digits_from None s
  end.

(** [str(x)], which is what an f-string and [astype(str)] apply to a cell. *)
Definition py_str (c : cell) : string :=
  match c with
  | CStr s => s
  | CInt z => str_int z
  | CFloat q => str_float q
  | CTime t => str_timestamp t
  | CNone => "None"
  | CNaN => "nan"
  | CNaT => "NaT"
  end.

End PythonStr.

(** ** Data frames and the store *)

Module Frame.

(** One row of the transaction table.  The first four columns are the
    ingested ones; the last three are the columns that the pipeline adds,
    [None] while the column does not exist. *)
Record Row := mkRow {
  Paid_Date : cell;
  Amount : cell;
  Type_ : cell;
  Last_4_Card_Digits : cell;
  last_4_card_digits : option string;
  Customer_ID : option string;
  Month : option (option Z)
}.

Definition DataFrame := list Row.

(** A row as the ingestion step delivers it. *)
Definition ingested (d a t c : cell) : Row := mkRow d a t c None None None.

Definition set_Paid_Date (v : cell) (x : Row) : Row :=
  mkRow v (Amount x) (Type_ x) (Last_4_Card_Digits x)
        (last_4_card_digits x) (Customer_ID x) (Month x).

Definition set_Amount (v : cell) (x : Row) : Row :=
  mkRow (Paid_Date x) v (Type_ x) (Last_4_Card_Digits x)
        (last_4_card_digits x) (Customer_ID x) (Month x).

Definition set_last_4_card_digits (v : string) (x : Row) : Row :=
  mkRow (Paid_Date x) (Amount x) (Type_ x) (Last_4_Card_Digits x)
        (Some v) (Customer_ID x) (Month x).

Definition set_Customer_ID (v : string) (x : Row) : Row :=
  mkRow (Paid_Date x) (Amount x) (Type_ x) (Last_4_Card_Digits x)
        (last_4_card_digits x) (Some v) (Month x).

Definition set_Month (v : option Z) (x : Row) : Row :=
  mkRow (Paid_Date x) (Amount x) (Type_ x) (Last_4_Card_Digits x)
        (last_4_card_digits x) (Customer_ID x) (Some v).

(** References to frames, and the store that holds them. *)
Definition ref := nat.

Record store := mkStore {
  next : ref;
  frames : ref -> DataFrame
}.

Definition update (s : store) (r : ref) (df : DataFrame) : store :=
  mkStore (next s) (fun r' => if Nat.eqb r' r then df else frames s r').

End Frame.
Export Frame.

(** ** State and exceptions *)

Module St.

Definition St (S A : Type) : Type := S -> result A * S.

Definition ret {S A} (a : A) : St S A := fun s => (Ok a, s).

Definition raise {S A} (e : exn) : St S A := fun s => (Raise e, s).

Definition bind {S A B} (m : St S A) (k : A -> St S B) : St S B :=
  fun s => match m s with
           | (Ok a, s') => k a s'
           | (Raise e, s') => (Raise e, s')
           end.

(** Run a computation on one component of a larger state. *)
Definition zoom {S T A} (proj : T -> S) (inj : S -> T -> T) (m : St S A) : St T A :=
  fun t => let (r, s') := m (proj t) in (r, inj s' t).

End St.
Export St.

Declare Scope py_scope.
Delimit Scope py_scope with py.
Notation "x <- c1 ;; c2" := (bind c1 (fun x => c2))
  (at level 61, c1 at next level, right associativity) : py_scope.
Notation "c1 ;; c2" := (bind c1 (fun _ => c2))
  (at level 61, right associativity) : py_scope.
Local Open Scope py_scope.

Module Heap.

(** [df[...]] reads go through the reference. *)
Definition read (r : ref) : St store DataFrame :=
  fun s => (Ok (frames s r), s).

(** In-place column assignment: the frame behind [r] is replaced. *)
Definition write (r : ref) (df : DataFrame) : St store unit :=
  fun s => (Ok tt, update s r df).

(** A new frame object. *)
Definition alloc (df : DataFrame) : St store ref :=
  fun s => (Ok (next s),
            mkStore (S (next s))
                    (fun r' => if Nat.eqb r' (next s) then df else frames s r')).

(** [DataFrame.copy()]. *)
Definition copy (r : ref) : St store ref :=
  df <- read r ;; alloc df.

(** [df[col] = f(row)], row by row, in place. *)
Definition assign (r : ref) (f : Row -> Row) : St store unit :=
  df <- read r ;; write r (map f df).

End Heap.
Export Heap.

(** ** The pandas operations that the pipeline uses *)

Module Pd.

(** A missing column is a [KeyError]. *)
Definition getcol {A} (name : string) (v : option A) : result A :=
  match v with
  | Some a => Ok a
  | None => Raise (KeyError name)
  end.

(** [df.apply(f, axis=1)] and [df[name]]: one value per row, or the first
    exception. *)
Fixpoint apply_rows {A B} (f : A -> result B) (df : list A) : result (list B) :=
  match df with
  | [] => Ok []
  | x :: df' =>
      match f x with
      | Raise e => Raise e
      | Ok b => match apply_rows f df' with
                | Raise e => Raise e
                | Ok bs => Ok (b :: bs)
                end
      end
  end.

Definition lift {S A} (r : result A) : St S A := fun s => (r, s).

(** Sorting, by insertion; stable. *)
Section Sort.
Context {A : Type} (leb : A -> A -> bool).

Fixpoint insert_sorted (a : A) (l : list A) : list A :=
  match l with
  | [] => [a]
  | b :: l' => if leb a b then a :: l else b :: insert_sorted a l'
  end.

Fixpoint sort (l : list A) : list A :=
  match l with
  | [] => []
  | a :: l' => insert_sorted a (sort l')
  end.

End Sort.

(** Group keys: the distinct keys, in sorted order ([groupby(sort=True)]). *)
Definition string_leb (a b : string) : bool :=
  match String.compare a b with Gt => false | _ => true end.

Definition group_keys (ids : list string) : list string :=
  sort string_leb (nodup string_dec ids).

Abbreviation key2 := (string * Z)%type.

Definition key2_dec (a b : key2) : {a = b} + {a <> b}.
Proof. decide equality; [apply Z.eq_dec | apply string_dec]. Defined.

Definition key2_leb (a b : key2) : bool :=
  match String.compare (fst a) (fst b) with
  | Lt => true
  | Eq => snd a <=? snd b
  | Gt => false
  end.

Definition group_keys2 (ks : list key2) : list key2 :=
  sort key2_leb (nodup key2_dec ks).

(** [DataFrame.head(n)]: the first [n] rows; for negative [n], all but
    the last [-n]. *)
Definition head {A} (n : Z) (df : list A) : list A :=
  if 0 <=? n then firstn (Z.to_nat n) df
  else firstn (List.length df - Z.to_nat (- n)) df.

(** Is this the cell of a [datetime64] column? *)
Definition is_datetime (c : cell) : bool :=
  match c with CTime _ | CNaT => true | _ => false end.

(** [Series.dt.month] on one cell of a datetime column: [nan] for [NaT]. *)
Definition dt_month (c : cell) : option Z :=
  match c with CTime t => Some (month t) | _ => None end.

(** [max] of a group of a datetime column: [NaT] is skipped, and is the
    result when nothing else is there. *)
Fixpoint datetime_max (cs : list cell) : cell :=
  match cs with
  | [] => CNaT
  | CTime t :: cs' =>
      match datetime_max cs' with
      | CTime m => CTime (ts_max t m)
      | _ => CTime t
      end
  | _ :: cs' => datetime_max cs'
  end.

(** The sum of a list of numbers, in exact arithmetic. *)
Definition Qsum (qs : list Q) : Q := fold_right Qplus 0%Q qs.

End Pd.
Export Pd.

Section Conversions.
Context `{Pandas}.

(** [pd.to_datetime(.., format="%m/%d/%y %I:%M %p", errors="coerce")],
    one cell: timestamps stay, missing values become [NaT], anything else
    is read as text in the given format, [NaT] when it does not match. *)
Definition to_datetime (c : cell) : cell :=
  match c with
  | CTime t => CTime t
  | CNone | CNaN | CNaT => CNaT
  | _ => match strptime (py_str c) with
         | Some t => CTime t
         | None => CNaT
         end
  end.

(** [pd.to_numeric(.., errors="coerce")], one cell. *)
Definition to_numeric (c : cell) : cell :=
  match c with
  | CInt z => CInt z
  | CFloat q => CFloat q
  | CStr s => match parse_numeric s with
              | Some (inl z) => CInt z
              | Some (inr q) => CFloat q
              | None => CNaN
              end
  | _ => CNaN
  end.

(** The value of a cell of a numeric column, [None] for [nan]. *)
Definition numeric_value (c : cell) : option Q :=
  match c with
  | CInt z => Some (inject_Z z)
  | CFloat q => Some q
  | _ => None
  end.

(** [max] of a group of a column, by the type of the column. *)
Definition column_max (column group : list cell) : cell :=
  if forallb is_datetime column then datetime_max group else object_max group.

End Conversions.

(** ** FreRecAnalysis.py *)

Module FrequencyRecency.

(** Rows of the frames that the methods return. *)
Record VisitRow := mkVisit {
  v_Customer_ID : string;
  v_Month : Z;
  Visits : Z
}.

Record RecencyRow := mkRecency {
  r_Customer_ID : string;
  Recency : cell
}.

(** A row of the merged frame [data] of [categorize_customers]. *)
Record DataRow := mkData {
  d_Customer_ID : string;
  d_Month : Z;
  d_Visits : Z;
  d_Recency : cell;
  Total_Visits : Z;
  Recency_Month : option Z
}.

(** The dict [customer_categories]. *)
Definition dict := list (string * Z).


(** [d[k] += 1] on a key that is there. *)
Definition dict_incr (k : string) (d : dict) : dict :=
  map (fun kv => if String.eqb (fst kv) k then (fst kv, snd kv + 1) else kv) d.

Section WithPandas.
Context `{Pandas}.

(** [all_data["Last 4 Card Digits"].fillna("").astype(str)], one cell. *)
Definition fillna_astype_str (c : cell) : string :=
  if isna c then "" else py_str c.

(** The [lambda] of [create_customer_id], applied to the row [x]. *)
Definition customer_id_lambda (x : Row) : result string :=
  match getcol "last_4_card_digits" (last_4_card_digits x) with
  | Raise e => Raise e
  | Ok l4 =>
      Ok (if notna (CStr l4) && isdigit l4
          then l4
          else py_str (Paid_Date x) ++ "|" ++ py_str (Amount x) ++ "|" ++ py_str (Type_ x))
  end.

(** [create_customer_id(self, all_data)]: works on a copy and returns it. *)
Definition create_customer_id (all_data : ref) : St store ref :=
  all_data' <- copy all_data ;;
  assign all_data'
    (fun x => set_last_4_card_digits (fillna_astype_str (Last_4_Card_Digits x)) x) ;;
  df <- read all_data' ;;
  ids <- lift (apply_rows customer_id_lambda df) ;;
  write all_data' (map (fun p => set_Customer_ID (fst p) (snd p)) (combine ids df)) ;;
  ret all_data'.

(** [groupby(["Customer ID", "Month"]).size().reset_index(name="Visits")]:
    rows whose month is [nan] belong to no group. *)
Definition visit_keys (df : DataFrame) : result (list key2) :=
  match apply_rows (fun x => getcol "Customer ID" (Customer_ID x)) df with
  | Raise e => Raise e
  | Ok ids =>
      match apply_rows (fun x => getcol "Month" (Month x)) df with
      | Raise e => Raise e
      | Ok months =>
          Ok (flat_map (fun p => match snd p with
                                 | Some m => [(fst p, m)]
                                 | None => []
                                 end) (combine ids months))
      end
  end.

Definition group_sizes (ks : list key2) : list VisitRow :=
  map (fun k => mkVisit (fst k) (snd k) (Z.of_nat (count_occ key2_dec ks k)))
      (group_keys2 ks).

(** [calculate_monthly_visits(self, all_data)]: the two column assignments
    are made on the frame that was passed in. *)
Definition calculate_monthly_visits (all_data : ref) : St store (list VisitRow) :=
  assign all_data (fun x => set_Paid_Date (to_datetime (Paid_Date x)) x) ;;
  assign all_data (fun x => set_Month (dt_month (Paid_Date x)) x) ;;
  df <- read all_data ;;
  ks <- lift (visit_keys df) ;;
  ret (group_sizes ks).

(** Does the row belong to the group of customer [c]? *)
Definition has_id (c : string) (x : Row) : bool :=
  match Customer_ID x with
  | Some c' => String.eqb c' c
  | None => false
  end.

(** [calculate_recency(self, all_data)]:
    [groupby("Customer ID")["Paid Date"].max().reset_index(name="Recency")]. *)
Definition calculate_recency (all_data : ref) : St store (list RecencyRow) :=
  df <- read all_data ;;
  ids <- lift (apply_rows (fun x => getcol "Customer ID" (Customer_ID x)) df) ;;
  ret (map (fun c =>
              mkRecency c (column_max (map Paid_Date df)
                                      (map Paid_Date (filter (has_id c) df))))
           (group_keys ids)).

End WithPandas.

(** [pd.merge(frequency_data, recency_data, on="Customer ID", how="left")]:
    every visit row, once per recency row of its customer, and once with a
    missing recency when there is none. *)
Definition merge_left (frequency_data : list VisitRow) (recency_data : list RecencyRow)
  : list (VisitRow * cell) :=
  flat_map (fun f =>
              match filter (fun r => String.eqb (r_Customer_ID r) (v_Customer_ID f))
                           recency_data with
              | [] => [(f, CNaT)]
              | ms => map (fun r => (f, Recency r)) ms
              end) frequency_data.

(** [data.groupby("Customer ID")["Visits"].transform("sum")], for one
    customer. *)
Definition total_visits (data : list (VisitRow * cell)) (c : string) : Z :=
  fold_right Z.add 0
    (map (fun p => Visits (fst p))
         (filter (fun p => String.eqb (v_Customer_ID (fst p)) c) data)).

(** The frame [data] after its two added columns.  [.dt] needs a datetime
    column. *)
Definition build_data (frequency_data : list VisitRow) (recency_data : list RecencyRow)
  : result (list DataRow) :=
  let data := merge_left frequency_data recency_data in
  if forallb is_datetime (map Recency recency_data)
  then Ok (map (fun p => mkData (v_Customer_ID (fst p)) (v_Month (fst p)) (Visits (fst p))
                                (snd p)
                                (total_visits data (v_Customer_ID (fst p)))
                                (dt_month (snd p)))
               data)
  else Raise (AttributeError "Can only use .dt accessor with datetimelike values").

(** [row["Recency Month"] == self.current_month]; [nan] equals nothing. *)
Definition month_eq (m : option Z) (current_month : Z) : bool :=
  match m with
  | Some z => z =? current_month
  | None => false
  end.

(** The key that the body of the [for] loop increments for [row]. *)
Definition segment (current_month : Z) (row : DataRow) : string :=
  if 6 <? Total_Visits row then
    if month_eq (Recency_Month row) current_month
    then "Active Regular"
    else "Inactive Regular"
  else
    if month_eq (Recency_Month row) current_month
    then "Active Occasional"
    else "Inactive Occasional".

Definition customer_categories0 : dict :=
  [("Active Regular", 0); ("Inactive Regular", 0);
   ("Active Occasional", 0); ("Inactive Occasional", 0)].

(** [categorize_customers(self, frequency_data, recency_data)]; the loop
    over [data.iterrows()] is the left fold. *)
Definition categorize_customers (current_month : Z)
    (frequency_data : list VisitRow) (recency_data : list RecencyRow) : result dict :=
  match build_data frequency_data recency_data with
  | Raise e => Raise e
  | Ok data =>
      Ok (fold_left (fun customer_categories row =>
                       dict_incr (segment current_month row) customer_categories)
                    data customer_categories0)
  end.

Section Main.
Context `{Pandas}.

(** The body of [main] once the worksheets are fetched and concatenated
    into the frame behind [all_data]; the result is the frame that
    [self.all_data] names afterwards, and the categories that are printed. *)
Definition main_body (current_month : Z) (all_data : ref) : St store (ref * dict) :=
  all_data <- create_customer_id all_data ;;
  monthly_visits <- calculate_monthly_visits all_data ;;
  recency_data <- calculate_recency all_data ;;
  customer_categories <- lift (categorize_customers current_month monthly_visits recency_data) ;;
  ret (all_data, customer_categories).

End Main.
End FrequencyRecency.

(** ** Floats: IEEE binary64, rounding to nearest even *)

Module PyFloat.

Definition float := spec_float.

Definition fadd : float -> float -> float := SFadd prec emax.
Definition fsub : float -> float -> float := SFsub prec emax.
Definition fmul : float -> float -> float := SFmul prec emax.
Definition fdiv : float -> float -> float := SFdiv prec emax.

Definition is_nan (x : float) : bool :=
  match x with S754_nan => true | _ => false end.

Definition is_finite (x : float) : bool :=
  match x with S754_zero _ | S754_finite _ _ _ => true | _ => false end.

(** The float nearest to a rational: exactly that rational when it is a
    binary64 value.  A denominator that is a power of two needs one
    rounding of the numerator; the others are divided out. *)
Definition float_of_Q (q : Q) : float :=
  let d := Zpos (Qden q) in
  let k := Z.log2 d in
  if d =? 2 ^ k then binary_normalize prec emax (Qnum q) (- k) false
  else fdiv (binary_normalize prec emax (Qnum q) 0 false)
            (binary_normalize prec emax d 0 false).

(** The value of a finite float.  A rational has no infinity: where a sum
    leaves the range of binary64 the bound [2 ^ 1024] stands for it, and
    zero for a [nan]. *)
Definition Q_of_float (x : float) : Q :=
  match x with
  | S754_zero _ => 0
  | S754_finite s m e => (if s then - 1 else 1) * inject_Z (Zpos m) * 2 ^ e
  | S754_infinity s => (if s then - 1 else 1) * 2 ^ 1024
  | S754_nan => 0
  end%Q.

(** [float(n)] for an [int]: the nearest binary64 value. *)
Definition float_of_int (n : Z) : result float :=
  match binary_normalize prec emax n 0 false with
  | S754_infinity _ => Raise (OverflowError "int too large to convert to float")
  | f => Ok f
  end.

(** The literal [100], as a float. *)
Definition hundred : float := Eval vm_compute in binary_normalize prec emax 100 0 false.

(** [int(x)]: truncation towards zero. *)
Definition py_int (x : float) : result Z :=
  match x with
  | S754_zero _ => Ok 0
  | S754_finite s m e =>
      let a := if 0 <=? e then Zpos m * 2 ^ e else Zpos m / 2 ^ (- e) in
      Ok (if s then - a else a)
  | S754_infinity _ => Raise (OverflowError "cannot convert float infinity to integer")
  | S754_nan => Raise (ValueError "cannot convert float NaN to integer")
  end.

End PyFloat.
Export PyFloat.

(** ** The sum of the groups of a numeric column

    [groupby(..)[..].sum()] adds the values of a group in the order of the
    rows, in the arithmetic of the column's type.  After [pd.to_numeric] a
    column of integers that fit 64 bits is an [int64] column, and its
    additions wrap around; a column with a float or a [nan] in it is a
    [float64] column, whose integers have become floats.  There the
    library adds with a running compensation (Kahan's summation) and skips
    [nan]; a group without any number sums to zero.  An integer beyond 64
    bits sends the column to [float64] here; the library has further
    column types for that case, and the statements about totals leave such
    columns out. *)

Module Numeric.

Definition in_int64 (z : Z) : bool := (- 2 ^ 63 <=? z) && (z <? 2 ^ 63).

Definition int64_wrap (z : Z) : Z := (z + 2 ^ 63) mod 2 ^ 64 - 2 ^ 63.

Definition int64_column (column : list cell) : bool :=
  forallb (fun c => match c with CInt z => in_int64 z | _ => false end) column.

Definition int64_values (group : list cell) : list Z :=
  flat_map (fun c => match c with CInt z => [z] | _ => [] end) group.

Definition float64_values (group : list cell) : list float :=
  flat_map (fun c => match c with
                     | CInt z => [float_of_Q (inject_Z z)]
                     | CFloat q => [float_of_Q q]
                     | _ => []
                     end) group.

Definition int64_sum (values : list Z) : Z :=
  fold_left (fun sumx val => int64_wrap (sumx + val)) values 0.

(** The loop of the library's [group_sum] over the values of one group:
    [y = val - compensation; t = sumx + y;
     compensation = t - sumx - y; sumx = t], the compensation being reset
    when it is [nan]. *)
Fixpoint kahan (sumx compensation : float) (values : list float) : float :=
  match values with
  | [] => sumx
  | val :: values' =>
      let y := fsub val compensation in
      let t := fadd sumx y in
      let c := fsub (fsub t sumx) y in
      kahan t (if is_nan c then S754_zero false else c) values'
  end.

Definition float64_sum (values : list float) : float :=
  kahan (S754_zero false) (S754_zero false) values.

(** The sum of one group of a column. *)
Definition column_sum (column group : list cell) : Q :=
  if int64_column column then inject_Z (int64_sum (int64_values group))
  else Q_of_float (float64_sum (float64_values group)).

End Numeric.
Export Numeric.

(** ** MVAnalysis.py *)

Module MonetaryValue.

Record MonetaryRow := mkMonetary {
  m_Customer_ID : string;
  Total_Monetary_Value : Q
}.

(** A row of [self.action_plan]; [Action] is [None] until the column is
    assigned. *)
Record ActionRow := mkAction {
  a_Customer_ID : string;
  a_Total_Monetary_Value : Q;
  Action : option string
}.

(** The attributes of a [MonetaryValue] object. *)
Record MonetaryValue := mkMonetaryValue {
  all_data : ref;
  monetary_data : option (list MonetaryRow);
  action_plan : option (list ActionRow)
}.

(** What a method call can see: the object and the frames. *)
Record world := mkWorld {
  self : MonetaryValue;
  heap : store
}.

Definition on_heap {A} (m : St store A) : St world A :=
  zoom heap (fun h w => mkWorld (self w) h) m.

Definition get_self : St world MonetaryValue :=
  fun w => (Ok (self w), w).

Definition set_monetary_data (v : option (list MonetaryRow)) : St world unit :=
  fun w => (Ok tt, mkWorld (mkMonetaryValue (all_data (self w)) v (action_plan (self w)))
                           (heap w)).

Definition set_action_plan (v : option (list ActionRow)) : St world unit :=
  fun w => (Ok tt, mkWorld (mkMonetaryValue (all_data (self w)) (monetary_data (self w)) v)
                           (heap w)).

(** [value > 1000] and the like, on exact numbers. *)
Definition Qleb (a b : Q) : bool := Qle_bool a b.
Definition Qltb (a b : Q) : bool := negb (Qle_bool b a).

(** [_assign_action(self, value)]. *)
Definition _assign_action (value : Q) : string :=
  if Qltb 1000 value then
    "VIP Treatment: Personalized Offers"
  else if Qleb 500 value && Qleb value 1000 then
    "Upselling: Discounts on Larger Purchases"
  else if Qleb 100 value && Qltb value 500 then
    "Retention: Loyalty Rewards"
  else
    "Engagement: Marketing Emails or Social Media".

Definition not_calculated : exn :=
  ValueError "Monetary value data has not been calculated. Call calculate_monetary_value() first.".

(** [sort_values(by="Total Monetary Value", ascending=False)].  The order
    among equal totals is the library's; here it is the order before the
    sort. *)
Definition sort_descending (md : list MonetaryRow) : list MonetaryRow :=
  sort (fun a b => Qleb (Total_Monetary_Value b) (Total_Monetary_Value a)) md.

(** [groupby("Customer ID")["Amount"].sum().reset_index(..)]. *)
Definition group_sums (ids : list string) (df : DataFrame) : list MonetaryRow :=
  map (fun c =>
         mkMonetary c (column_sum (map Amount df)
                                  (map Amount (filter (FrequencyRecency.has_id c) df))))
      (group_keys ids).

Section WithPandas.
Context `{Pandas}.

(** [MonetaryValue(all_data)]. *)
Definition __init__ (all_data : ref) : St store MonetaryValue :=
  all_data' <- copy all_data ;;
  ret (mkMonetaryValue all_data' None None).

(** [calculate_monetary_value(self)]. *)
Definition calculate_monetary_value : St world unit :=
  self <- get_self ;;
  on_heap (assign (all_data self) (fun x => set_Amount (to_numeric (Amount x)) x)) ;;
  df <- on_heap (read (all_data self)) ;;
  ids <- lift (apply_rows (fun x => getcol "Customer ID" (Customer_ID x)) df) ;;
  set_monetary_data (Some (group_sums ids df)) ;;
  self <- get_self ;;
  match monetary_data self with
  | Some md => set_monetary_data (Some (sort_descending md))
  | None => raise (AttributeError "'NoneType' object has no attribute 'sort_values'")
  end.

(** The object and the store after [MonetaryValue(all_data)]. *)
Definition construct (all_data : ref) (s : store) : world :=
  match __init__ all_data s with
  | (Ok mv, s') => mkWorld mv s'
  | (Raise _, s') => mkWorld (mkMonetaryValue all_data None None) s'
  end.

End WithPandas.

(** [identify_top_spending_customers(self, top_percent)]. *)
Definition identify_top_spending_customers (top_percent : float)
  : St world (list MonetaryRow) :=
  self <- get_self ;;
  match monetary_data self with
  | None => raise not_calculated
  | Some md =>
      len <- lift (float_of_int (Z.of_nat (List.length md))) ;;
      top_n <- lift (py_int (fmul len (fdiv top_percent hundred))) ;;
      ret (head top_n md)
  end.

(** [generate_action_plan(self)]. *)
Definition generate_action_plan : St world unit :=
  self <- get_self ;;
  match monetary_data self with
  | None => raise not_calculated
  | Some md =>
      set_action_plan
        (Some (map (fun r => mkAction (m_Customer_ID r) (Total_Monetary_Value r) None) md)) ;;
      self <- get_self ;;
      match action_plan self with
      | Some ap =>
          set_action_plan
            (Some (map (fun r => mkAction (a_Customer_ID r) (a_Total_Monetary_Value r)
                                          (Some (_assign_action (a_Total_Monetary_Value r))))
                       ap))
      | None => raise (TypeError "'NoneType' object does not support item assignment")
      end
  end.

End MonetaryValue.

(** ** An instance of the text functions, and example frames

    [plain_text] reads a literal of digits as an [int] and a literal with
    a decimal point as the nearest float, prints floats with their decimal
    digits, and knows the digits of Unicode 14; no text is in the
    twelve-hour date format, which is right for the ISO dates of the
    repository's tests.  It is used for the concrete runs below; the
    general statements hold for every instance. *)

Module Examples.

Fixpoint digits_value (s : string) (acc : Z) : option Z :=
  match s with
  | EmptyString => Some acc
  | String c s' =>
      if is_digit c
      then digits_value s' (10 * acc + (Z.of_nat (nat_of_ascii c) - 48))
      else None
  end.

Fixpoint split_dot (s : string) : string * option string :=
  match s with
  | EmptyString => (EmptyString, None)
  | String c s' =>
      if Ascii.eqb c "." then (EmptyString, Some s')
      else let (a, b) := split_dot s' in (String c a, b)
  end.

(** An unsigned literal: digits alone are an [int]; with a point, the
    float nearest to the decimal fraction. *)
Definition parse_unsigned (s : string) : option (Z + Q) :=
  let (i, f) := split_dot s in
  match f with
  | None =>
      if (String.length i =? 0)%nat then None else option_map inl (digits_value i 0)
  | Some f =>
      if ((String.length i + String.length f) =? 0)%nat then None
      else match digits_value i 0, digits_value f 0 with
           | Some a, Some b =>
               Some (inr (Q_of_float
                            (float_of_Q
                               (inject_Z a + Qmake b (Pos.pow 10 (Pos.of_nat (String.length f))))%Q)))
           | _, _ => None
           end
  end.

Definition negate (v : Z + Q) : Z + Q :=
  match v with
  | inl z => inl (- z)
  | inr q => inr (- q)%Q
  end.

Definition parse_decimal (s : string) : option (Z + Q) :=
  match s with
  | String "-" s' => option_map negate (parse_unsigned s')
  | String "+" s' => parse_unsigned s'
  | _ => parse_unsigned s
  end.

Fixpoint fraction_digits (fuel : nat) (num : Z) (den : Z) : string :=
  match fuel with
  | O => EmptyString
  | S fuel' =>
      let d := (10 * num) / den in
      let r := (10 * num) mod den in
      str_int d ++ (if r =? 0 then EmptyString else fraction_digits fuel' r den)
  end.

Definition print_decimal (q : Q) : string :=
  let n := Z.abs (Qnum q) in
  let d := Zpos (Qden q) in
  (if Qnum q <? 0 then "-" else "") ++
  str_int (n / d) ++ "." ++ fraction_digits 17 (n mod d) d.

Fixpoint string_max (cs : list cell) : cell :=
  match cs with
  | [] => CNaN
  | [c] => c
  | CStr a :: cs' =>
      match string_max cs' with
      | CStr b => if string_leb a b then CStr b else CStr a
      | c => c
      end
  | c :: _ => c
  end.

(** The code points above 127 that Unicode 14 gives the numeric type
    Digit or Decimal, as ranges. *)
Definition digit_ranges : list (Z * Z) :=
  [ (178, 179); (185, 185); (1632, 1641); (1776, 1785); (1984, 1993); (2406, 2415);
    (2534, 2543); (2662, 2671); (2790, 2799); (2918, 2927); (3046, 3055); (3174, 3183);
    (3302, 3311); (3430, 3439); (3558, 3567); (3664, 3673); (3792, 3801); (3872, 3881);
    (4160, 4169); (4240, 4249); (4969, 4977); (6112, 6121); (6160, 6169); (6470, 6479);
    (6608, 6618); (6784, 6793); (6800, 6809); (6992, 7001); (7088, 7097); (7232, 7241);
    (7248, 7257); (8304, 8304); (8308, 8313); (8320, 8329); (9312, 9320); (9332, 9340);
    (9352, 9360); (9450, 9450); (9461, 9469); (9471, 9471); (10102, 10110); (10112, 10120);
    (10122, 10130); (42528, 42537); (43216, 43225); (43264, 43273); (43472, 43481);
    (43504, 43513); (43600, 43609); (44016, 44025); (65296, 65305); (66720, 66729);
    (68160, 68163); (68912, 68921); (69216, 69224); (69714, 69722); (69734, 69743);
    (69872, 69881); (69942, 69951); (70096, 70105); (70384, 70393); (70736, 70745);
    (70864, 70873); (71248, 71257); (71360, 71369); (71472, 71481); (71904, 71913);
    (72016, 72025); (72784, 72793); (73040, 73049); (73120, 73129); (92768, 92777);
    (92864, 92873); (93008, 93017); (120782, 120831); (123200, 123209); (123632, 123641);
    (125264, 125273); (127232, 127242); (130032, 130041) ].

Definition in_digit_ranges (code : Z) : bool :=
  existsb (fun r => (fst r <=? code) && (code <=? snd r)) digit_ranges.

Definition plain_text : Pandas := {|
  strptime := fun _ => None;
  parse_numeric := parse_decimal;
  str_float := print_decimal;
  object_max := string_max;
  unicode_digit := in_digit_ranges
|}.

(** The one-character texts SUPERSCRIPT TWO (U+00B2) and ARABIC-INDIC
    DIGIT FOUR (U+0664), and the text of a seven and a FULLWIDTH DIGIT
    SEVEN (U+FF17), in UTF-8. *)
Definition superscript_two : string := String "194" (String "178" EmptyString).
Definition arabic_indic_four : string := String "217" (String "164" EmptyString).
Definition seven_fullwidth_seven : string :=
  String "7" (String "239" (String "188" (String "151" EmptyString))).

(** A store that holds one frame, behind reference 0. *)
Definition store_of (df : DataFrame) : store := mkStore 1%nat (fun _ => df).

(** The sample data of [testFreRecAnalysis.py]. *)
Definition sample_data : DataFrame :=
  [ ingested (CStr "2024-10-01 10:00:00") (CStr "25.00") (CStr "Credit") (CStr "1234");
    ingested (CStr "2024-09-15 14:00:00") (CStr "50.00") (CStr "Credit") (CStr "5678");
    ingested (CStr "2024-08-20 17:00:00") (CStr "75.00") (CStr "Cash") (CStr "") ].

(** The same rows, with the dates parsed beforehand as the tests do. *)
Definition oct_1 : Timestamp := mkTimestamp 2024 10 1 10 0 0.
Definition sep_15 : Timestamp := mkTimestamp 2024 9 15 14 0 0.
Definition aug_20 : Timestamp := mkTimestamp 2024 8 20 17 0 0.

Definition sample_parsed : DataFrame :=
  [ ingested (CTime oct_1) (CStr "25.00") (CStr "Credit") (CStr "1234");
    ingested (CTime sep_15) (CStr "50.00") (CStr "Credit") (CStr "5678");
    ingested (CTime aug_20) (CStr "75.00") (CStr "Cash") (CStr "") ].

(** One card holder who came in September and in October. *)
Definition two_months : DataFrame :=
  [ ingested (CTime sep_15) (CInt 50) (CStr "Credit") (CStr "1234");
    ingested (CTime oct_1) (CInt 25) (CStr "Credit") (CStr "1234") ].

(** One card holder with a parsed date and a date in another format, and
    one whose only date is in another format. *)
Definition mixed_dates : DataFrame :=
  [ ingested (CTime oct_1) (CInt 25) (CStr "Credit") (CStr "1234");
    ingested (CStr "2024-09-15 14:00:00") (CInt 50) (CStr "Credit") (CStr "1234");
    ingested (CStr "2024-08-20 17:00:00") (CInt 75) (CStr "Credit") (CStr "5678") ].

(** The frame of [testMVAnalysis.py]: customer identifiers and amounts only. *)
Definition mv_row (c : string) (a : Z) : Row :=
  mkRow CNaN (CInt a) CNaN CNaN None (Some c) None.

Definition test_data : DataFrame :=
  [ mv_row "C1" 1500; mv_row "C2" 800; mv_row "C3" 300; mv_row "C4" 50; mv_row "C5" 1200 ].





(** Two integer amounts of [2 ^ 62]. *)
Definition two_large : DataFrame :=
  [ mv_row "1234" (2 ^ 62); mv_row "1234" (2 ^ 62) ].

(** A hundred customers, customer [i] having spent [i]. *)
Definition hundred_customers : DataFrame :=
  map (fun i => mv_row (str_int (Z.of_nat i)) (Z.of_nat i)) (seq 1 100).

(** The floats 0, 29 and 40. *)
Definition f0 : float := S754_zero false.
Definition f29 : float := Eval vm_compute in binary_normalize prec emax 29 0 false.
Definition f40 : float := Eval vm_compute in binary_normalize prec emax 40 0 false.

End Examples.

(** ** The design document's wording, for comparison with the code *)

Module Design.

(** The rows of one customer. *)
Definition rows_of (c : string) (df : DataFrame) : DataFrame :=
  filter (FrequencyRecency.has_id c) df.

Section WithPandas.
Context `{Pandas}.

(** "The card-suffix field is present and consists entirely of digits." *)
Definition usable_card_suffix (x : Row) : bool :=
  notna (Last_4_Card_Digits x) && isdigit (py_str (Last_4_Card_Digits x)).

(** "Timestamp, amount, and payment-type, joined by a fixed separator,
    taken verbatim from the row." *)
Definition composite_key (x : Row) : string :=
  py_str (Paid_Date x) ++ "|" ++ py_str (Amount x) ++ "|" ++ py_str (Type_ x).

(** The identity of section 4.1. *)
Definition identity (x : Row) : string :=
  if usable_card_suffix x then py_str (Last_4_Card_Digits x) else composite_key x.

(** "Rows whose timestamp fails to parse" are those that [to_datetime]
    turns into [NaT]; the others parse. *)
Definition parses (x : Row) : bool := notna (to_datetime (Paid_Date x)).

(** The parsed timestamps of one customer. *)
Definition parsed_timestamps (c : string) (df : DataFrame) : list Timestamp :=
  flat_map (fun x => match to_datetime (Paid_Date x) with
                     | CTime t => [t]
                     | _ => []
                     end) (rows_of c df).

(** The row of the caller's frame after [calculate_monthly_visits]. *)
Definition after_visits (x : Row) : Row :=
  set_Month (dt_month (to_datetime (Paid_Date x)))
            (set_Paid_Date (to_datetime (Paid_Date x)) x).

(** The group key of a row, when it has one. *)
Definition visit_key (x : Row) : list key2 :=
  match Customer_ID x, dt_month (to_datetime (Paid_Date x)) with
  | Some c, Some m => [(c, m)]
  | _, _ => []
  end.

(** "Non-numeric or unparseable amounts contributing zero." *)
Definition amount_or_zero (x : Row) : Q :=
  match numeric_value (to_numeric (Amount x)) with
  | Some q => q
  | None => 0%Q
  end.

(** "The sum of that customer's numeric transaction amounts." *)
Definition spend_of (c : string) (df : DataFrame) : Q :=
  Qsum (map amount_or_zero (rows_of c df)).

(** The column of amounts once [pd.to_numeric] has been applied to it. *)
Definition numeric_amounts (df : DataFrame) : list cell :=
  map (fun x => to_numeric (Amount x)) df.

(** The float [x] is finite and its value is [q]. *)
Definition exactly (x : float) (q : Q) : bool :=
  is_finite x && Qeq_bool (Q_of_float x) q.

(** Every operation of the summation of [values] gives the exact result. *)
Fixpoint exact_steps (sumx compensation : float) (values : list float) : bool :=
  match values with
  | [] => true
  | val :: values' =>
      let y := fsub val compensation in
      let t := fadd sumx y in
      let d := fsub t sumx in
      let c := fsub d y in
      exactly y (Q_of_float val - Q_of_float compensation) &&
      exactly t (Q_of_float sumx + Q_of_float y) &&
      exactly d (Q_of_float t - Q_of_float sumx) &&
      exactly c (Q_of_float d - Q_of_float y) &&
      exact_steps t (if is_nan c then S754_zero false else c) values'
  end.

(** The number in the cell is a binary64 value (an integer may be too long
    for one). *)
Definition exact_float (c : cell) : bool :=
  match c with
  | CInt z => exactly (float_of_Q (inject_Z z)) (inject_Z z)
  | CFloat q => exactly (float_of_Q q) q
  | _ => true
  end.

Definition fits_int64 (c : cell) : bool :=
  match c with
  | CInt z => in_int64 z
  | _ => true
  end.

(** "No addition rounds, overflows or wraps around", of the amounts of one
    customer taken in the order of the rows.  In an [int64] column: the sum
    fits 64 bits.  In a [float64] column: every amount of the customer is a
    binary64 value, and every operation of the summation gives a finite
    float that is the exact result.  A column with an integer beyond 64
    bits is of neither kind. *)
Definition adds_exactly (c : string) (df : DataFrame) : bool :=
  let column := numeric_amounts df in
  let group := numeric_amounts (rows_of c df) in
  if int64_column column
  then in_int64 (fold_right Z.add 0 (int64_values group))
  else forallb fits_int64 column && forallb exact_float group &&
       exact_steps (S754_zero false) (S754_zero false) (float64_values group).

End WithPandas.

(** The total that a monetary table holds for a customer. *)
Fixpoint total_in (c : string) (md : list MonetaryValue.MonetaryRow) : option Q :=
  match md with
  | [] => None
  | r :: md' =>
      if String.eqb (MonetaryValue.m_Customer_ID r) c
      then Some (MonetaryValue.Total_Monetary_Value r)
      else total_in c md'
  end.


(** "Sum of all periods for a customer." *)
Definition visits_of (c : string) (monthly_visits : list FrequencyRecency.VisitRow) : Z :=
  fold_right Z.add 0
    (map FrequencyRecency.Visits
         (filter (fun v => String.eqb (FrequencyRecency.v_Customer_ID v) c) monthly_visits)).

(** The sum of the values of a dict. *)
Definition dict_total (d : FrequencyRecency.dict) : Z :=
  fold_right Z.add 0 (map snd d).


Definition segment_labels : list string :=
  ["Active Regular"; "Inactive Regular"; "Active Occasional"; "Inactive Occasional"].

End Design.

(** ** Groups of the visit frame *)

Module Groups.

Section WithPandas.
Context `{Pandas}.

(** Row [x] is a visit of customer [c] in month [m]. *)
Definition in_group (c : string) (m : Z) (x : Row) : bool :=
  FrequencyRecency.has_id c x &&
  match dt_month (to_datetime (Paid_Date x)) with
  | Some m' => m' =? m
  | None => false
  end.

End WithPandas.

(** The key of a row of the visit frame. *)
Definition visit_row_key (v : FrequencyRecency.VisitRow) : string * Z :=
  (FrequencyRecency.v_Customer_ID v, FrequencyRecency.v_Month v).

End Groups.

(** ** The rest of MVAnalysis.py *)

Module Plan.
Import MonetaryValue.

(** The four actions, from the highest band to the lowest, numbered by
    band. *)
Definition band_rank (action : string) : Z :=
  if String.eqb action "VIP Treatment: Personalized Offers" then 3
  else if String.eqb action "Upselling: Discounts on Larger Purchases" then 2
  else if String.eqb action "Retention: Loyalty Rewards" then 1
  else 0.

Definition action_labels : list string :=
  ["VIP Treatment: Personalized Offers";
   "Upselling: Discounts on Larger Purchases";
   "Retention: Loyalty Rewards";
   "Engagement: Marketing Emails or Social Media"].

(** The distinct values of a column, in the order in which they first
    appear. *)
Fixpoint unique (seen : list string) (l : list string) : list string :=
  match l with
  | [] => []
  | a :: l' =>
      if existsb (String.eqb a) seen then unique seen l'
      else a :: unique (a :: seen) l'
  end.

(** [Series.value_counts()]: every distinct value with the number of its
    occurrences, the most frequent first.  The order among equal counts
    is the library's; here it is the order of first appearance. *)
Definition value_counts (column : list string) : list (string * Z) :=
  sort (fun a b => snd b <=? snd a)
       (map (fun v => (v, Z.of_nat (count_occ string_dec column v)))
            (unique [] column)).

Definition not_generated : exn :=
  ValueError "Action plan has not been generated. Call generate_action_plan() first.".

(** [visualize_action_plans(self)].  The figure is matplotlib's; the
    result here is what is handed to [plt.bar]: the labels of
    [action_counts] and their counts, bar by bar. *)
Definition visualize_action_plans : St world (list (string * Z)) :=
  self <- get_self ;;
  match action_plan self with
  | None => raise not_generated
  | Some ap =>
      column <- lift (apply_rows (fun r => getcol "Action" (Action r)) ap) ;;
      ret (value_counts column)
  end.

(** The band of a row of the action plan. *)
Definition plan_rank (r : ActionRow) : Z :=
  match Action r with
  | Some a => band_rank a
  | None => 0
  end.

(** The order of [sort_values(ascending=False)]: [a] may come before [b]. *)
Definition spends_at_least (a b : MonetaryRow) : Prop :=
  (Total_Monetary_Value b <= Total_Monetary_Value a)%Q.

End Plan.

(** ** [FrequencyRecency.main] *)

Module Main.
Import FrequencyRecency.

(** What [get_data_from_google_sheet] gives for a worksheet: its rows as a
    frame, or the exception that the sheet service raised, by its
    message. *)
Inductive fetched :=
| Rows (df : DataFrame)
| Failed (message : string).

(** [get_data_from_google_sheet(self, sheet_id, worksheet_name,
    credentials_file)] is the service's. *)
Class Sheets := {
  get_data_from_google_sheet : string -> string -> string -> fetched
}.

(** The attributes of a [FrequencyRecency] object. *)
Record FrequencyRecency := mkFrequencyRecency {
  credentials_file : string;
  sheet_id : string;
  worksheet_names : list string;
  current_month : Z;
  all_data : option ref
}.

(** [FrequencyRecency(credentials_file, sheet_id, worksheet_names,
    current_month)]. *)
Definition __init__ (credentials_file sheet_id : string) (worksheet_names : list string)
    (current_month : Z) : FrequencyRecency :=
  mkFrequencyRecency credentials_file sheet_id worksheet_names current_month None.

(** The object, the frames and what has been printed. *)
Record process := mkProcess {
  self : FrequencyRecency;
  heap : store;
  stdout : list string
}.

(** The body of a [try]: the state, and a value or the message of the
    exception that ended it. *)
Definition Try (A : Type) : Type := process -> (string + A) * process.

Definition pure {A} (a : A) : Try A := fun w => (inr a, w).

Definition throw {A} (message : string) : Try A := fun w => (inl message, w).

Definition and_then {A B} (m : Try A) (k : A -> Try B) : Try B :=
  fun w => match m w with
           | (inr a, w') => k a w'
           | (inl message, w') => (inl message, w')
           end.

Declare Scope try_scope.
Notation "x <- c1 ;; c2" := (and_then c1 (fun x => c2))
  (at level 61, c1 at next level, right associativity) : try_scope.
Notation "c1 ;; c2" := (and_then c1 (fun _ => c2))
  (at level 61, right associativity) : try_scope.
Local Open Scope try_scope.

Definition get_self : Try FrequencyRecency := fun w => (inr (self w), w).

(** [str(e)]. *)
Definition str_exn (e : exn) : string :=
  match e with
  | KeyError key => "'" ++ key ++ "'"
  | ValueError msg => msg
  | OverflowError msg => msg
  | AttributeError msg => msg
  | TypeError msg => msg
  end.

(** A call of one of the methods above, on the frames of the process. *)
Definition call {A} (m : St store A) : Try A :=
  fun w => match m (heap w) with
           | (Ok a, h) => (inr a, mkProcess (self w) h (stdout w))
           | (Raise e, h) => (inl (str_exn e), mkProcess (self w) h (stdout w))
           end.

Definition set_all_data (r : ref) : Try unit :=
  fun w => (inr tt,
            mkProcess (mkFrequencyRecency (credentials_file (self w)) (sheet_id (self w))
                         (worksheet_names (self w)) (current_month (self w)) (Some r))
                      (heap w) (stdout w)).

Definition print (line : string) : Try unit :=
  fun w => (inr tt, mkProcess (self w) (heap w) (stdout w ++ [line])).

(** [d[k] = v] on a Python dict: a key that is there keeps its place. *)
Fixpoint dict_set {V} (k : string) (v : V) (d : list (string * V)) : list (string * V) :=
  match d with
  | [] => [(k, v)]
  | (k', v') :: d' =>
      if String.eqb k' k then (k, v) :: d' else (k', v') :: dict_set k v d'
  end.

(** [pd.concat(frames, ignore_index=True)]. *)
Definition concat (frames : list DataFrame) : result DataFrame :=
  match frames with
  | [] => Raise (ValueError "No objects to concatenate")
  | _ => Ok (List.concat frames)
  end.

(** [str(d)] for a dict of counts. *)
Fixpoint str_items (d : dict) : string :=
  match d with
  | [] => ""
  | [(k, v)] => "'" ++ k ++ "': " ++ str_int v
  | (k, v) :: d' => "'" ++ k ++ "': " ++ str_int v ++ ", " ++ str_items d'
  end.

Definition str_dict (d : dict) : string := "{" ++ str_items d ++ "}".

Section WithServices.
Context `{Pandas} `{Sheets}.

(** The [for] loop of [main] over [self.worksheet_names]. *)
Fixpoint fetch_all (self : FrequencyRecency) (names : list string)
    (data_frames : list (string * DataFrame)) : string + list (string * DataFrame) :=
  match names with
  | [] => inr data_frames
  | worksheet_name :: names' =>
      match get_data_from_google_sheet (sheet_id self) worksheet_name
                                       (credentials_file self) with
      | Failed message => inl message
      | Rows df => fetch_all self names' (dict_set worksheet_name df data_frames)
      end
  end.

(** The body of the [try] of [main]. *)
Definition try_body : Try unit :=
  self <- get_self ;;
  data_frames <- (fun w => (fetch_all self (worksheet_names self) [], w)) ;;
  frame <- call (lift (concat (map snd data_frames))) ;;
  all_data <- call (alloc frame) ;;
  set_all_data all_data ;;
  all_data <- call (create_customer_id all_data) ;;
  set_all_data all_data ;;
  monthly_visits <- call (calculate_monthly_visits all_data) ;;
  recency_data <- call (calculate_recency all_data) ;;
  customer_categories <-
    call (lift (categorize_customers (current_month self) monthly_visits recency_data)) ;;
  print ("Customer Categories: " ++ str_dict customer_categories).

(** [main(self)]: whatever the body raises is printed. *)
Definition main (w : process) : process :=
  match try_body w with
  | (inr _, w') => w'
  | (inl message, w') => snd (print ("Error: " ++ message) w')
  end.

End WithServices.

End Main.

(** A sheet service with two worksheets, for the concrete runs: one holds
    the rows of [two_months], the other those of [sample_parsed]; any
    other worksheet is not found. *)
Module Worksheets.
Import Main.

Definition two_sheets : Sheets := {|
  get_data_from_google_sheet := fun _ worksheet_name _ =>
    if String.eqb worksheet_name "Navis Cafe" then Rows Examples.two_months
    else if String.eqb worksheet_name "Two Fat Cats" then Rows Examples.sample_parsed
    else Failed ("Worksheet not found: " ++ worksheet_name)
|}.

(** A new process with a new object. *)
Definition start (worksheet_names : list string) : process :=
  mkProcess (__init__ "service_account.json" "sheet" worksheet_names 10)
            (mkStore 0%nat (fun _ => [])) [].

End Worksheets.

(** The rows that [main] works on: those of the worksheets, each
    worksheet once, in the order in which the names first appear. *)
Module Loaded.
Import Main.

Section WithServices.
Context `{Sheets}.

Definition sheet_rows (self : FrequencyRecency) (worksheet_name : string) : DataFrame :=
  match get_data_from_google_sheet (sheet_id self) worksheet_name (credentials_file self) with
  | Rows df => df
  | Failed _ => []
  end.

Definition loaded_rows (self : FrequencyRecency) : DataFrame :=
  flat_map (sheet_rows self) (Plan.unique [] (worksheet_names self)).

End WithServices.

(** The object with [self.all_data] set. *)
Definition with_all_data (self : FrequencyRecency) (r : ref) : FrequencyRecency :=
  mkFrequencyRecency (credentials_file self) (sheet_id self) (worksheet_names self)
                     (current_month self) (Some r).

End Loaded.

(** * Properties *)

Import FrequencyRecency MonetaryValue Examples Design Groups Plan.

(** ** Running the monad *)

Lemma apply_rows_map {A B} (f : A -> result B) (g : A -> B) (df : list A) :
  (forall x, In x df -> f x = Ok (g x)) ->
  apply_rows f df = Ok (map g df).
Proof.
  induction df as [|x df IH]; intros Hf; simpl; [reflexivity|].
  rewrite (Hf x (or_introl eq_refl)), IH; [reflexivity|].
  intros y Hy. apply Hf. right. exact Hy.
Qed.

Lemma combine_map_self {A B C} (f : A -> B) (g : B -> A -> C) (l : list A) :
  map (fun p => g (fst p) (snd p)) (combine (map f l) l) = map (fun x => g (f x) x) l.
Proof.
  induction l as [|x l IH]; simpl; [reflexivity|]. now rewrite IH.
Qed.

(** ** Sorting and grouping *)

Section SortFacts.
Context {A : Type} (leb : A -> A -> bool).

Lemma insert_sorted_perm (a : A) (l : list A) :
  Permutation (insert_sorted leb a l) (a :: l).
Proof.
  induction l as [|b l IH]; cbn; [reflexivity|].
  destruct (leb a b); [reflexivity|].
  rewrite IH. apply perm_swap.
Qed.

Lemma sort_perm (l : list A) : Permutation (sort leb l) l.
Proof.
  induction l as [|a l IH]; cbn; [reflexivity|].
  rewrite insert_sorted_perm. now constructor.
Qed.

End SortFacts.

Lemma group_keys_spec (ids : list string) :
  NoDup (group_keys ids) /\ forall c, In c (group_keys ids) <-> In c ids.
Proof.
  unfold group_keys. split.
  - apply (Permutation_NoDup (l := nodup string_dec ids)).
    + symmetry. apply sort_perm.
    + apply NoDup_nodup.
  - intros c. split; intros Hin.
    + apply (nodup_In string_dec). eapply Permutation_in; [apply sort_perm | exact Hin].
    + eapply Permutation_in; [symmetry; apply sort_perm|].
      apply (nodup_In string_dec). exact Hin.
Qed.

Lemma group_keys2_spec (ks : list key2) :
  NoDup (group_keys2 ks) /\ forall k, In k (group_keys2 ks) <-> In k ks.
Proof.
  unfold group_keys2. split.
  - apply (Permutation_NoDup (l := nodup key2_dec ks)).
    + symmetry. apply sort_perm.
    + apply NoDup_nodup.
  - intros k. split; intros Hin.
    + apply (nodup_In key2_dec). eapply Permutation_in; [apply sort_perm | exact Hin].
    + eapply Permutation_in; [symmetry; apply sort_perm|].
      apply (nodup_In key2_dec). exact Hin.
Qed.

(** Counting the occurrences of each distinct key counts every element
    once. *)
Section Counting.
Context {K : Type} (dec : forall a b : K, {a = b} + {a <> b}) (P : K -> bool).

Lemma indicator_sum (a : K) (gk : list K) :
  NoDup gk -> In a gk ->
  fold_right Nat.add 0%nat
    (map (fun k => if dec a k then 1%nat else 0%nat) (filter P gk))
  = if P a then 1%nat else 0%nat.
Proof.
  induction gk as [|k gk IH]; intros Hnd Hin; [destruct Hin|].
  inversion Hnd as [|? ? Hnotin Hnd']; subst.
  assert (Hzero : ~ In a gk ->
            fold_right Nat.add 0%nat
              (map (fun k => if dec a k then 1%nat else 0%nat) (filter P gk)) = 0%nat).
  { clear. induction gk as [|k gk IH]; intros Hn; [reflexivity|].
    cbn [filter]. destruct (P k); cbn [map fold_right].
    - destruct (dec a k) as [->|_]; [exfalso; apply Hn; now left|].
      apply IH. intros Hin. apply Hn. now right.
    - apply IH. intros Hin. apply Hn. now right. }
  cbn [filter]. destruct Hin as [->|Hin].
  - destruct (P a); cbn [map fold_right].
    + destruct (dec a a) as [_|Hne]; [|contradiction]. now rewrite (Hzero Hnotin).
    + exact (Hzero Hnotin).
  - assert (Hne : a <> k) by (intros ->; contradiction).
    destruct (P k); cbn [map fold_right].
    + destruct (dec a k) as [He|_]; [contradiction|]. now apply IH.
    + now apply IH.
Qed.

Lemma group_counts (ks gk : list K) :
  NoDup gk -> (forall k, In k ks -> In k gk) ->
  fold_right Nat.add 0%nat (map (count_occ dec ks) (filter P gk))
  = List.length (filter P ks).
Proof.
  intros Hnd. induction ks as [|a ks IH]; intros Hcover.
  - cbn. induction (filter P gk) as [|k l IHl]; [reflexivity|exact IHl].
  - assert (Hsplit : forall l,
              fold_right Nat.add 0%nat (map (count_occ dec (a :: ks)) l)
              = (fold_right Nat.add 0%nat (map (fun k => if dec a k then 1 else 0) l)
                 + fold_right Nat.add 0%nat (map (count_occ dec ks) l))%nat).
    { induction l as [|k l IHl]; [reflexivity|].
      cbn [map fold_right]. rewrite IHl. cbn [count_occ].
      destruct (dec a k); lia. }
    rewrite Hsplit, IH, indicator_sum.
    + cbn [filter]. destruct (P a); cbn [List.length]; lia.
    + exact Hnd.
    + apply Hcover. now left.
    + intros k Hk. apply Hcover. now right.
Qed.

End Counting.

(** ** Identity resolution *)

Section Identity.
Context `{Pandas}.

(** The row that [create_customer_id] makes of [x]. *)
Lemma customer_id_lambda_identity (x : Row) :
  customer_id_lambda
    (set_last_4_card_digits (fillna_astype_str (Last_4_Card_Digits x)) x)
  = Ok (identity x).
Proof.
  unfold customer_id_lambda, identity, usable_card_suffix, composite_key,
    fillna_astype_str, notna.
  simpl. destruct (isna (Last_4_Card_Digits x)); simpl; reflexivity.
Qed.

Lemma create_customer_id_run (all_data : ref) (s : store) :
  exists s',
    create_customer_id all_data s = (Ok (next s), s') /\
    next s' = S (next s) /\
    frames s' (next s) =
      map (fun x => set_Customer_ID (identity x)
                      (set_last_4_card_digits (fillna_astype_str (Last_4_Card_Digits x)) x))
          (frames s all_data) /\
    forall r, r <> next s -> frames s' r = frames s r.
Proof.
  unfold create_customer_id, copy, assign, read, write, alloc, lift, bind, ret, update.
  cbn [next frames]. rewrite Nat.eqb_refl.
  set (f := fun x => set_last_4_card_digits (fillna_astype_str (Last_4_Card_Digits x)) x).
  rewrite (apply_rows_map customer_id_lambda identity).
  - eexists. split; [reflexivity|]. cbn [next frames]. rewrite Nat.eqb_refl.
    split; [reflexivity|]. split.
    + rewrite combine_map_self, map_map. reflexivity.
    + intros r Hr. apply Nat.eqb_neq in Hr. rewrite Hr. reflexivity.
  - intros y Hy. apply in_map_iff in Hy. destruct Hy as [x [<- _]].
    exact (customer_id_lambda_identity x).
Qed.

(** On ASCII text [str.isdigit()] asks for one character at least, and for
    each of them to be one of [0] to [9]. *)
Lemma all_digits_from_ascii (s : string) :
  is_ascii s = true -> all_digits_from None s = all_digits s.
Proof.
  induction s as [|c s IH]; [reflexivity|].
  cbn [is_ascii all_digits_from all_digits]. intros Hs.
  apply andb_true_iff in Hs. destruct Hs as [Hc Hs].
  apply Nat.ltb_lt in Hc.
  replace (Z.of_nat (nat_of_ascii c) <? 128) with true by (symmetry; apply Z.ltb_lt; lia).
  now rewrite IH.
Qed.

(** C3.  [create_customer_id] gives every row the identity of section 4.1:
    the card suffix when it is present and all digits, otherwise the
    timestamp, the amount and the payment type joined by ["|"].  Hence equal
    usable card suffixes give equal identities, two transactions without a
    usable suffix and with the same timestamp, amount and type give equal
    identities, and the three rows of the test data resolve to ["1234"],
    ["5678"] and ["2024-08-20 17:00:00|75.00|Cash"].  "All digits" is what
    [str.isdigit()] says: for ASCII text, one character at least and each
    of them one of [0] to [9]; a digit of Unicode beyond ASCII counts as
    one too. *)
Theorem customer_identity_resolution :
  (forall (s : store) (all_data : ref), exists s',
      create_customer_id all_data s = (Ok (next s), s') /\
      map Customer_ID (frames s' (next s))
      = map (fun x => Some (identity x)) (frames s all_data)) /\
  (forall x, usable_card_suffix x = true ->
      identity x = py_str (Last_4_Card_Digits x)) /\
  (forall x, usable_card_suffix x = false ->
      identity x = py_str (Paid_Date x) ++ "|" ++ py_str (Amount x) ++ "|" ++ py_str (Type_ x)) /\
  (forall x y, usable_card_suffix x = true -> usable_card_suffix y = true ->
      py_str (Last_4_Card_Digits x) = py_str (Last_4_Card_Digits y) ->
      identity x = identity y) /\
  (forall x y, usable_card_suffix x = false -> usable_card_suffix y = false ->
      Paid_Date x = Paid_Date y -> Amount x = Amount y -> Type_ x = Type_ y ->
      identity x = identity y) /\
  map Customer_ID (frames (snd (create_customer_id 0%nat (store_of sample_data))) 1%nat)
  = [Some "1234"; Some "5678"; Some "2024-08-20 17:00:00|75.00|Cash"] /\
  (forall s, is_ascii s = true ->
      isdigit s = match s with EmptyString => false | _ => all_digits s end).
Proof.
  split; [|split; [|split; [|split; [|split; [|split]]]]].
  - intros s all_data.
    destruct (create_customer_id_run all_data s) as [s' [Hrun [_ [Hnew _]]]].
    exists s'. split; [exact Hrun|].
    rewrite Hnew, map_map. reflexivity.
  - intros x Hx. unfold identity. now rewrite Hx.
  - intros x Hx. unfold identity. now rewrite Hx.
  - intros x y Hx Hy Heq. unfold identity. now rewrite Hx, Hy.
  - intros x y Hx Hy Hd Ha Ht. unfold identity, composite_key.
    now rewrite Hx, Hy, Hd, Ha, Ht.
  - reflexivity.
  - intros s Hs. unfold isdigit. destruct s; [reflexivity|].
    now apply all_digits_from_ascii.
Qed.

End Identity.

Lemma customer_identity_resolution_witness :
  @identity plain_text (ingested (CStr "2024-10-01 10:00:00") (CStr "25.00") (CStr "Credit") (CInt 1234))
  = @identity plain_text (ingested (CStr "2024-09-15 14:00:00") (CStr "50.00") (CStr "Credit") (CStr "1234")) /\
  @identity plain_text (ingested (CStr "2024-08-20 17:00:00") (CStr "75.00") (CStr "Cash") (CStr ""))
  = @identity plain_text (ingested (CStr "2024-08-20 17:00:00") (CStr "75.00") (CStr "Cash") CNone) /\
  @identity plain_text (ingested (CStr "2024-10-01 10:00:00") (CStr "25.00") (CStr "Credit")
                                 (CStr superscript_two))
  = superscript_two /\
  @identity plain_text (ingested (CStr "2024-10-01 10:00:00") (CStr "25.00") (CStr "Credit")
                                 (CStr "12a4"))
  = "2024-10-01 10:00:00|25.00|Credit" /\
  @isdigit plain_text "0042" = true /\
  @isdigit plain_text "12 4" = false /\
  @isdigit plain_text arabic_indic_four = true /\
  @isdigit plain_text seven_fullwidth_seven = true.
Proof.
  split; [|split; [|split; [|split; [|split; [|split; [|split]]]]]].
  - apply (proj1 (proj2 (proj2 (proj2 (customer_identity_resolution (H := plain_text))))));
      reflexivity.
  - apply (proj1 (proj2 (proj2 (proj2 (proj2 (customer_identity_resolution (H := plain_text)))))));
      reflexivity.
  - apply (proj1 (proj2 (customer_identity_resolution (H := plain_text)))). reflexivity.
  - apply (proj1 (proj2 (proj2 (customer_identity_resolution (H := plain_text))))). reflexivity.
  - rewrite (proj2 (proj2 (proj2 (proj2 (proj2 (proj2
               (customer_identity_resolution (H := plain_text)))))))); reflexivity.
  - rewrite (proj2 (proj2 (proj2 (proj2 (proj2 (proj2
               (customer_identity_resolution (H := plain_text)))))))); reflexivity.
  - reflexivity.
  - reflexivity.
Defined.

(** ** Action bands *)

Lemma Qleb_true (a b : Q) : Qleb a b = true <-> (a <= b)%Q.
Proof. unfold Qleb. apply Qle_bool_iff. Qed.

Lemma Qleb_false (a b : Q) : Qleb a b = false <-> (b < a)%Q.
Proof.
  unfold Qleb. split; intros Hf.
  - apply Qnot_le_lt. intros Hle. apply Qle_bool_iff in Hle. congruence.
  - destruct (Qle_bool a b) eqn:E; [|reflexivity].
    apply Qle_bool_iff in E. exfalso. apply (Qlt_not_le _ _ Hf). exact E.
Qed.

Lemma Qltb_true (a b : Q) : Qltb a b = true <-> (a < b)%Q.
Proof.
  unfold Qltb. rewrite negb_true_iff. apply (Qleb_false b a).
Qed.

Lemma Qltb_false (a b : Q) : Qltb a b = false <-> (b <= a)%Q.
Proof.
  unfold Qltb. rewrite negb_false_iff. apply (Qleb_true b a).
Qed.

Ltac q_bool :=
  repeat match goal with
         | H : Qleb _ _ = true |- _ => apply Qleb_true in H
         | H : Qleb _ _ = false |- _ => apply Qleb_false in H
         | H : Qltb _ _ = true |- _ => apply Qltb_true in H
         | H : Qltb _ _ = false |- _ => apply Qltb_false in H
         end.

Ltac action_cases v :=
  unfold _assign_action;
  destruct (Qltb 1000 v) eqn:?, (Qleb 500 v) eqn:?, (Qleb v 1000) eqn:?,
           (Qleb 100 v) eqn:?, (Qltb v 500) eqn:?;
  cbn [andb]; q_bool; try reflexivity; try (exfalso; lra).

(** What [generate_action_plan] stores once the totals are there. *)
Lemma generate_action_plan_run (w : world) (md : list MonetaryRow) :
  monetary_data (self w) = Some md ->
  generate_action_plan w
  = (Ok tt,
     mkWorld (mkMonetaryValue (all_data (self w)) (Some md)
                (Some (map (fun r => mkAction (m_Customer_ID r) (Total_Monetary_Value r)
                                      (Some (_assign_action (Total_Monetary_Value r))))
                           md)))
             (heap w)).
Proof.
  intros Hmd. unfold generate_action_plan, bind, get_self, set_action_plan.
  rewrite Hmd. cbn. rewrite Hmd, map_map. reflexivity.
Qed.

(** C4.  [_assign_action] maps a total spend to the label of its band:
    above 1000, from 500 to 1000, from 100 up to 500, below 100.  Every
    spend is in exactly one band, equal spends get equal labels, the
    [Action] column of the plan is this function of the row's total, and
    the spends 1500, 800, 300, 50, 1200 get the labels of Scenario B. *)
Theorem action_bands (v : Q) :
  ((1000 < v)%Q -> _assign_action v = "VIP Treatment: Personalized Offers") /\
  ((500 <= v)%Q /\ (v <= 1000)%Q ->
     _assign_action v = "Upselling: Discounts on Larger Purchases") /\
  ((100 <= v)%Q /\ (v < 500)%Q -> _assign_action v = "Retention: Loyalty Rewards") /\
  ((v < 100)%Q -> _assign_action v = "Engagement: Marketing Emails or Social Media") /\
  ((1000 < v)%Q \/ ((500 <= v)%Q /\ (v <= 1000)%Q) \/
   ((100 <= v)%Q /\ (v < 500)%Q) \/ (v < 100)%Q) /\
  (forall v', (v == v')%Q -> _assign_action v' = _assign_action v) /\
  (forall w md, monetary_data (self w) = Some md ->
     exists w', generate_action_plan w = (Ok tt, w') /\
       option_map (map (fun r => (a_Total_Monetary_Value r, Action r))) (action_plan (self w'))
       = Some (map (fun r => (Total_Monetary_Value r,
                              Some (_assign_action (Total_Monetary_Value r)))) md)) /\
  map _assign_action [1500; 800; 300; 50; 1200]%Q
  = ["VIP Treatment: Personalized Offers";
     "Upselling: Discounts on Larger Purchases";
     "Retention: Loyalty Rewards";
     "Engagement: Marketing Emails or Social Media";
     "VIP Treatment: Personalized Offers"].
Proof.
  split; [|split; [|split; [|split; [|split; [|split; [|split]]]]]].
  - intros Hv. action_cases v.
  - intros [H1 H2]. action_cases v.
  - intros [H1 H2]. action_cases v.
  - intros Hv. action_cases v.
  - destruct (Qlt_le_dec 1000 v); [now left|].
    destruct (Qlt_le_dec v 500); [|right; left; split; assumption].
    destruct (Qlt_le_dec v 100); [now right; right; right|].
    right; right; left. split; assumption.
  - intros v' Hv.
    unfold _assign_action.
    destruct (Qltb 1000 v) eqn:?, (Qleb 500 v) eqn:?, (Qleb v 1000) eqn:?,
             (Qleb 100 v) eqn:?, (Qltb v 500) eqn:?;
    destruct (Qltb 1000 v') eqn:?, (Qleb 500 v') eqn:?, (Qleb v' 1000) eqn:?,
             (Qleb 100 v') eqn:?, (Qltb v' 500) eqn:?;
    cbn [andb]; q_bool; try reflexivity; exfalso; lra.
  - intros w md Hmd. rewrite (generate_action_plan_run w md Hmd).
    eexists. split; [reflexivity|]. cbn. rewrite map_map. reflexivity.
  - reflexivity.
Qed.

Lemma action_bands_witness :
  _assign_action 1500 = "VIP Treatment: Personalized Offers" /\
  _assign_action 800 = "Upselling: Discounts on Larger Purchases" /\
  _assign_action 300 = "Retention: Loyalty Rewards" /\
  _assign_action 50 = "Engagement: Marketing Emails or Social Media".
Proof.
  split; [|split; [|split]].
  - apply (proj1 (action_bands 1500)). reflexivity.
  - apply (proj1 (proj2 (action_bands 800))). split; discriminate.
  - apply (proj1 (proj2 (proj2 (action_bands 300)))). split; [discriminate | reflexivity].
  - apply (proj1 (proj2 (proj2 (proj2 (action_bands 50))))). reflexivity.
Defined.

(** ** Monthly visits *)

Section Visits.
Context `{Pandas}.

Lemma to_datetime_cases (c : cell) :
  to_datetime c = CNaT \/ exists t, to_datetime c = CTime t.
Proof.
  destruct c; cbn; eauto;
    match goal with
    | |- context [strptime ?s] => destruct (strptime s); eauto
    end.
Qed.

Lemma to_datetime_is_datetime (c : cell) : is_datetime (to_datetime c) = true.
Proof.
  destruct (to_datetime_cases c) as [-> | [t ->]]; reflexivity.
Qed.

Lemma visit_keys_after (df : DataFrame) :
  (forall x, In x df -> Customer_ID x <> None) ->
  visit_keys (map after_visits df) = Ok (flat_map visit_key df).
Proof.
  intros Hid. unfold visit_keys.
  rewrite (apply_rows_map _ (fun x => match Customer_ID x with Some c => c | None => "" end)).
  - rewrite (apply_rows_map _ (fun x => dt_month (Paid_Date x))).
    + apply f_equal. induction df as [|x df IH]; [reflexivity|].
      cbn [map combine flat_map fst snd].
      rewrite IH by (intros y Hy; apply Hid; now right).
      pose proof (Hid x (or_introl eq_refl)) as Hx.
      unfold visit_key. cbn. destruct (Customer_ID x); [reflexivity | contradiction].
    + intros y Hy. apply in_map_iff in Hy. destruct Hy as [x [<- _]]. reflexivity.
  - intros y Hy. apply in_map_iff in Hy. destruct Hy as [x [<- Hx]].
    specialize (Hid x Hx). cbn. destruct (Customer_ID x); [reflexivity | contradiction].
Qed.

Lemma calculate_monthly_visits_run (all_data : ref) (s : store) :
  exists s',
    calculate_monthly_visits all_data s
    = (match visit_keys (map after_visits (frames s all_data)) with
       | Ok ks => Ok (group_sizes ks)
       | Raise e => Raise e
       end, s') /\
    next s' = next s /\
    frames s' all_data = map after_visits (frames s all_data) /\
    forall r, r <> all_data -> frames s' r = frames s r.
Proof.
  unfold calculate_monthly_visits, assign, read, write, lift, bind, ret, update.
  cbn [next frames]. rewrite !Nat.eqb_refl, map_map.
  change (fun x : Row =>
            set_Month (dt_month (Paid_Date (set_Paid_Date (to_datetime (Paid_Date x)) x)))
                      (set_Paid_Date (to_datetime (Paid_Date x)) x))
    with after_visits.
  destruct (visit_keys (map after_visits (frames s all_data)));
    (eexists; split; [reflexivity|]; cbn [next frames]; rewrite Nat.eqb_refl;
     split; [reflexivity|]; split; [reflexivity|];
     intros r Hr; apply Nat.eqb_neq in Hr; now rewrite Hr).
Qed.

Lemma visits_of_group_sizes (c : string) (ks : list key2) :
  visits_of c (group_sizes ks)
  = Z.of_nat (List.length (filter (fun k => String.eqb (fst k) c) ks)).
Proof.
  assert (Hsum : forall gk : list key2,
            visits_of c (map (fun k => mkVisit (fst k) (snd k)
                                         (Z.of_nat (count_occ key2_dec ks k))) gk)
            = Z.of_nat (fold_right Nat.add 0%nat
                          (map (count_occ key2_dec ks)
                               (filter (fun k => String.eqb (fst k) c) gk)))).
  { unfold visits_of. induction gk as [|k gk IH]; [reflexivity|].
    cbn [map filter v_Customer_ID].
    destruct (String.eqb (fst k) c); cbn [map fold_right Visits]; rewrite IH; lia. }
  destruct (group_keys2_spec ks) as [Hnd Hin].
  unfold group_sizes. rewrite Hsum. apply f_equal.
  apply (group_counts key2_dec (fun k => String.eqb (fst k) c) ks (group_keys2 ks) Hnd).
  intros k Hk. now apply Hin.
Qed.

Lemma visit_keys_of_customer (c : string) (df : DataFrame) :
  List.length (filter (fun k => String.eqb (fst k) c) (flat_map visit_key df))
  = List.length (filter parses (rows_of c df)).
Proof.
  induction df as [|x df IH]; [reflexivity|].
  cbn [flat_map]. rewrite filter_app, length_app, IH.
  change (rows_of c (x :: df))
    with (if has_id c x then x :: rows_of c df else rows_of c df).
  unfold visit_key, has_id, parses.
  destruct (Customer_ID x) as [c'|]; [|reflexivity].
  destruct (String.eqb c' c) eqn:E;
    destruct (to_datetime_cases (Paid_Date x)) as [Hd | [t Hd]];
    rewrite Hd; cbn; rewrite ?Hd, ?E; reflexivity.
Qed.

(** C8, as the code has it.  The monthly visit counts of a customer add
    up to the number of that customer's rows whose timestamp parses; rows
    whose timestamp does not parse are in no group.  When all of the
    customer's timestamps parse, this is the customer's number of rows. *)
Theorem monthly_visits_count_parsed_rows (all_data : ref) (s : store) :
  (forall x, In x (frames s all_data) -> Customer_ID x <> None) ->
  exists monthly_visits s',
    calculate_monthly_visits all_data s = (Ok monthly_visits, s') /\
    forall c,
      visits_of c monthly_visits
      = Z.of_nat (List.length (filter parses (rows_of c (frames s all_data)))) /\
      (forallb parses (rows_of c (frames s all_data)) = true ->
       visits_of c monthly_visits
       = Z.of_nat (List.length (rows_of c (frames s all_data)))).
Proof.
  intros Hid.
  destruct (calculate_monthly_visits_run all_data s) as [s' [Hrun _]].
  rewrite (visit_keys_after _ Hid) in Hrun.
  eexists. exists s'. split; [exact Hrun|].
  intros c. rewrite visits_of_group_sizes, visit_keys_of_customer.
  split; [reflexivity|].
  intros Hall. f_equal. f_equal.
  induction (rows_of c (frames s all_data)) as [|x l IH]; [reflexivity|].
  cbn in Hall |- *. apply andb_true_iff in Hall. destruct Hall as [Hx Hl].
  rewrite Hx. f_equal. now apply IH.
Qed.

End Visits.

(** The claim of C8 as the design document has it fails: of the two rows of
    card 1234 in [mixed_dates] only one has a date in the expected format,
    and the visits of 1234 add up to 1. *)
Lemma monthly_visits_drop_unparsed_rows :
  let s := snd (@create_customer_id plain_text 0%nat (store_of mixed_dates)) in
  exists monthly_visits s',
    @calculate_monthly_visits plain_text 1%nat s = (Ok monthly_visits, s') /\
    visits_of "1234" monthly_visits = 1 /\
    Z.of_nat (List.length (rows_of "1234" (frames s 1%nat))) = 2 /\
    visits_of "1234" monthly_visits
    <> Z.of_nat (List.length (rows_of "1234" (frames s 1%nat))).
Proof.
  intros s. eexists. eexists. split; [reflexivity|].
  split; [reflexivity|]. split; [reflexivity|]. discriminate.
Qed.

Lemma monthly_visits_count_parsed_rows_witness :
  let s := snd (@create_customer_id plain_text 0%nat (store_of mixed_dates)) in
  exists monthly_visits s',
    @calculate_monthly_visits plain_text 1%nat s = (Ok monthly_visits, s') /\
    forall c,
      visits_of c monthly_visits
      = Z.of_nat (List.length (filter (@parses plain_text) (rows_of c (frames s 1%nat)))) /\
      (forallb (@parses plain_text) (rows_of c (frames s 1%nat)) = true ->
       visits_of c monthly_visits
       = Z.of_nat (List.length (rows_of c (frames s 1%nat)))).
Proof.
  intros s.
  apply (monthly_visits_count_parsed_rows (H := plain_text) 1%nat s).
  intros x [<-|[<-|[<-|[]]]]; discriminate.
Defined.

(** ** Recency *)

Lemma lex_leb_refl (a : list Z) : lex_leb a a = true.
Proof.
  induction a as [|x a IH]; [reflexivity|].
  cbn. rewrite Z.ltb_irrefl. exact IH.
Qed.

Lemma lex_leb_total (a b : list Z) : lex_leb a b = false -> lex_leb b a = true.
Proof.
  revert b. induction a as [|x a IH]; intros [|y b]; cbn; try congruence.
  destruct (x <? y) eqn:E1; [discriminate|].
  destruct (y <? x) eqn:E2; [reflexivity|].
  apply IH.
Qed.

Lemma lex_leb_trans (a b c : list Z) :
  lex_leb a b = true -> lex_leb b c = true -> lex_leb a c = true.
Proof.
  revert b c. induction a as [|x a IH]; intros [|y b] [|z c]; cbn; try congruence.
  destruct (x <? y) eqn:E1, (y <? x) eqn:E2, (y <? z) eqn:E3, (z <? y) eqn:E4,
           (x <? z) eqn:E5, (z <? x) eqn:E6;
    try congruence; try (apply IH);
    repeat match goal with
           | E : (_ <? _) = true |- _ => apply Z.ltb_lt in E
           | E : (_ <? _) = false |- _ => apply Z.ltb_ge in E
           end; lia.
Qed.

Lemma ts_max_upper (t m : Timestamp) :
  ts_leb t (ts_max t m) = true /\ ts_leb m (ts_max t m) = true.
Proof.
  unfold ts_max, ts_leb. destruct (lex_leb (ts_fields t) (ts_fields m)) eqn:E.
  - split; [exact E | apply lex_leb_refl].
  - split; [apply lex_leb_refl | now apply lex_leb_total].
Qed.

(** [datetime_max] is [NaT] when the group has no timestamp, and otherwise
    a timestamp of the group that none of the group exceeds. *)
Lemma datetime_max_spec (cs : list cell) :
  (datetime_max cs = CNaT /\ forall t, ~ In (CTime t) cs) \/
  (exists m, datetime_max cs = CTime m /\ In (CTime m) cs /\
             forall t, In (CTime t) cs -> ts_leb t m = true).
Proof.
  induction cs as [|c cs IH].
  - left. split; [reflexivity | intros t []].
  - assert (Hskip : (forall t, c <> CTime t) -> datetime_max (c :: cs) = datetime_max cs).
    { intros Hc. destruct c; try reflexivity. exfalso. now apply (Hc t). }
    destruct c as [s|z|q|t| | |];
      try (rewrite Hskip by discriminate;
           destruct IH as [[Hn Hno] | [m [Hm [Hin Hub]]]];
           [left; split; [exact Hn | intros t [Hc|Hc]; [discriminate | now apply (Hno t)]]
           |right; exists m; split; [exact Hm|]; split; [now right|];
            intros t [Hc|Hc]; [discriminate | now apply Hub]]).
    right. cbn [datetime_max].
    destruct IH as [[Hn Hno] | [m [Hm [Hin Hub]]]].
    + rewrite Hn. exists t. split; [reflexivity|]. split; [now left|].
      intros t' [Hc|Hc].
      * injection Hc as <-. apply lex_leb_refl.
      * exfalso. now apply (Hno t').
    + rewrite Hm. exists (ts_max t m). split; [reflexivity|].
      destruct (ts_max_upper t m) as [Ht Hmm]. split.
      * unfold ts_max. destruct (ts_leb t m); [now right | now left].
      * intros t' [Hc|Hc].
        -- injection Hc as <-. exact Ht.
        -- unfold ts_leb in *. eapply lex_leb_trans; [apply Hub; exact Hc | exact Hmm].
Qed.

Section Recency.
Context `{Pandas}.

Lemma calculate_recency_run (all_data : ref) (s : store) :
  let df := frames s all_data in
  calculate_recency all_data s
  = (match apply_rows (fun x => getcol "Customer ID" (Customer_ID x)) df with
     | Ok ids =>
         Ok (map (fun c => mkRecency c (column_max (map Paid_Date df)
                                                   (map Paid_Date (filter (has_id c) df))))
                 (group_keys ids))
     | Raise e => Raise e
     end, s).
Proof.
  intros df. unfold calculate_recency, read, lift, bind, ret. fold df.
  destruct (apply_rows _ df); reflexivity.
Qed.

Lemma customer_ids (df : DataFrame) :
  (forall x, In x df -> Customer_ID x <> None) ->
  exists ids,
    apply_rows (fun x => getcol "Customer ID" (Customer_ID x)) df = Ok ids /\
    forall c, In c ids <-> exists x, In x df /\ Customer_ID x = Some c.
Proof.
  intros Hid.
  exists (map (fun x => match Customer_ID x with Some c => c | None => "" end) df).
  split.
  - apply apply_rows_map. intros x Hx. specialize (Hid x Hx).
    destruct (Customer_ID x); [reflexivity | contradiction].
  - intros c. rewrite in_map_iff. split; intros [x [Hx1 Hx2]]; exists x.
    + split; [exact Hx2|]. specialize (Hid x Hx2).
      destruct (Customer_ID x); [congruence | contradiction].
    + split; [now rewrite Hx2 | exact Hx1].
Qed.

Lemma rows_of_after_visits (c : string) (df : DataFrame) :
  map Paid_Date (filter (has_id c) (map after_visits df))
  = map (fun x => to_datetime (Paid_Date x)) (rows_of c df).
Proof.
  unfold rows_of. induction df as [|x df IH]; [reflexivity|].
  cbn [map filter]. change (has_id c (after_visits x)) with (has_id c x).
  destruct (has_id c x); cbn [map]; now rewrite IH.
Qed.

Lemma parsed_timestamps_in (c : string) (df : DataFrame) (t : Timestamp) :
  In t (parsed_timestamps c df)
  <-> In (CTime t) (map (fun x => to_datetime (Paid_Date x)) (rows_of c df)).
Proof.
  unfold parsed_timestamps. induction (rows_of c df) as [|x l IH]; [reflexivity|].
  cbn [flat_map map]. rewrite in_app_iff, IH.
  destruct (to_datetime_cases (Paid_Date x)) as [Hd | [t' Hd]]; rewrite Hd; cbn.
  - split; [intros [[]|Hin]; now right | intros [Hc|Hin]; [discriminate | now right]].
  - split.
    + intros [[->|[]]|Hin]; [now left | now right].
    + intros [Hc|Hin]; [injection Hc as ->; now left; left | now right].
Qed.

(** C7, as the code has it.  After [calculate_monthly_visits] has parsed
    the dates of the frame, [calculate_recency] has one row for every
    customer of the frame; its recency is the latest of the customer's
    timestamps that parse, the others being skipped, and it is [NaT], in a
    row that is there all the same, when none of them parses. *)
Theorem recency_is_latest_parsed (all_data : ref) (s : store) :
  (forall x, In x (frames s all_data) -> Customer_ID x <> None) ->
  exists monthly_visits s' recency_data,
    calculate_monthly_visits all_data s = (Ok monthly_visits, s') /\
    calculate_recency all_data s' = (Ok recency_data, s') /\
    NoDup (map r_Customer_ID recency_data) /\
    (forall c, In c (map r_Customer_ID recency_data)
               <-> exists x, In x (frames s all_data) /\ Customer_ID x = Some c) /\
    (forall c v, In (mkRecency c v) recency_data ->
       (parsed_timestamps c (frames s all_data) = [] /\ v = CNaT) \/
       (exists m, v = CTime m /\
                  In m (parsed_timestamps c (frames s all_data)) /\
                  forall t, In t (parsed_timestamps c (frames s all_data)) ->
                            ts_leb t m = true)).
Proof.
  intros Hid.
  destruct (calculate_monthly_visits_run all_data s) as [s' [Hrun [_ [Hframe _]]]].
  rewrite (visit_keys_after _ Hid) in Hrun.
  assert (Hid' : forall x, In x (frames s' all_data) -> Customer_ID x <> None).
  { rewrite Hframe. intros y Hy. apply in_map_iff in Hy. destruct Hy as [x [<- Hx]].
    exact (Hid x Hx). }
  destruct (customer_ids _ Hid') as [ids [Hids Hin]].
  pose proof (calculate_recency_run all_data s') as Hrec. cbv zeta in Hrec.
  rewrite Hids in Hrec.
  destruct (group_keys_spec ids) as [Hnd Hkeys].
  eexists. exists s'. eexists. split; [exact Hrun|]. split; [exact Hrec|].
  rewrite map_map. cbn [r_Customer_ID]. rewrite map_id.
  split; [exact Hnd|]. split.
  - intros c. rewrite Hkeys, Hin, Hframe. split.
    + intros [y [Hy Hc]]. apply in_map_iff in Hy. destruct Hy as [x [<- Hx]].
      exists x. split; [exact Hx | exact Hc].
    + intros [x [Hx Hc]]. exists (after_visits x). split; [now apply in_map | exact Hc].
  - intros c v Hv. apply in_map_iff in Hv. destruct Hv as [c' [Hv _]].
    injection Hv as -> <-. rewrite Hframe.
    unfold column_max.
    assert (Hcol : forallb is_datetime (map Paid_Date (map after_visits (frames s all_data)))
                   = true).
    { apply forallb_forall. intros d Hd. rewrite map_map in Hd.
      apply in_map_iff in Hd. destruct Hd as [x [<- _]]. apply to_datetime_is_datetime. }
    rewrite Hcol, rows_of_after_visits.
    destruct (datetime_max_spec
                (map (fun x => to_datetime (Paid_Date x)) (rows_of c (frames s all_data))))
      as [[Hn Hno] | [m [Hm [Hinm Hub]]]].
    + left. split; [|exact Hn].
      destruct (parsed_timestamps c (frames s all_data)) as [|t l] eqn:E; [reflexivity|].
      exfalso. apply (Hno t). apply parsed_timestamps_in. rewrite E. now left.
    + right. exists m. split; [exact Hm|]. split.
      * now apply parsed_timestamps_in.
      * intros t Ht. apply Hub. now apply parsed_timestamps_in.
Qed.

End Recency.

(** The claim of C7 as the design document has it fails: none of the dates
    of card 5678 in [mixed_dates] parses, and the recency frame has a row
    for 5678 all the same, holding [NaT]. *)
Lemma recency_keeps_unparsed_customer :
  let s := snd (@create_customer_id plain_text 0%nat (store_of mixed_dates)) in
  exists monthly_visits s' recency_data,
    @calculate_monthly_visits plain_text 1%nat s = (Ok monthly_visits, s') /\
    @calculate_recency plain_text 1%nat s' = (Ok recency_data, s') /\
    @parsed_timestamps plain_text "5678" (frames s 1%nat) = [] /\
    In "5678" (map r_Customer_ID recency_data) /\
    recency_data = [mkRecency "1234" (CTime oct_1); mkRecency "5678" CNaT].
Proof.
  intros s. eexists. eexists. eexists. split; [reflexivity|].
  split; [reflexivity|]. split; [reflexivity|]. split; [right; left; reflexivity|].
  reflexivity.
Qed.

Lemma recency_is_latest_parsed_witness :
  let s := snd (@create_customer_id plain_text 0%nat (store_of mixed_dates)) in
  exists monthly_visits s' recency_data,
    @calculate_monthly_visits plain_text 1%nat s = (Ok monthly_visits, s') /\
    @calculate_recency plain_text 1%nat s' = (Ok recency_data, s') /\
    NoDup (map r_Customer_ID recency_data) /\
    (forall c, In c (map r_Customer_ID recency_data)
               <-> exists x, In x (frames s 1%nat) /\ Customer_ID x = Some c) /\
    (forall c v, In (mkRecency c v) recency_data ->
       (@parsed_timestamps plain_text c (frames s 1%nat) = [] /\ v = CNaT) \/
       (exists m, v = CTime m /\
                  In m (@parsed_timestamps plain_text c (frames s 1%nat)) /\
                  forall t, In t (@parsed_timestamps plain_text c (frames s 1%nat)) ->
                            ts_leb t m = true)).
Proof.
  intros s.
  apply (recency_is_latest_parsed (H := plain_text) 1%nat s).
  intros x [<-|[<-|[<-|[]]]]; discriminate.
Defined.

(** ** Segments *)

Lemma dict_incr_keys (k : string) (d : dict) :
  map fst (dict_incr k d) = map fst d.
Proof.
  unfold dict_incr. rewrite map_map. apply map_ext.
  intros [k' v]. cbn. now destruct (String.eqb k' k).
Qed.


Lemma dict_total_incr (k : string) (d : dict) :
  NoDup (map fst d) -> In k (map fst d) ->
  dict_total (dict_incr k d) = dict_total d + 1.
Proof.
  unfold dict_total.
  induction d as [|[k0 v0] d IH]; intros Hnd Hin; [destruct Hin|].
  cbn [dict_incr map fst snd fold_right] in *. fold (dict_incr k d).
  inversion Hnd as [|? ? Hnotin Hnd']; subst.
  destruct (String.eqb k0 k) eqn:E; cbn [snd].
  - apply String.eqb_eq in E. subst k0.
    assert (Hsame : dict_incr k d = d).
    { clear - Hnotin. induction d as [|[k1 v1] d IH]; [reflexivity|].
      cbn [dict_incr map fst snd] in *. fold (dict_incr k d).
      destruct (String.eqb k1 k) eqn:E1.
      - apply String.eqb_eq in E1. subst. exfalso. apply Hnotin. now left.
      - f_equal. apply IH. intros Hin. apply Hnotin. now right. }
    rewrite Hsame. lia.
  - destruct Hin as [Heq|Hin].
    + subst. now rewrite String.eqb_refl in E.
    + rewrite (IH Hnd' Hin). lia.
Qed.


Lemma loop_keys (current_month : Z) (data : list DataRow) (d : dict) :
  map fst (fold_left (fun cc row => dict_incr (segment current_month row) cc) data d)
  = map fst d.
Proof.
  revert d. induction data as [|row data IH]; intros d; [reflexivity|].
  cbn [fold_left]. now rewrite IH, dict_incr_keys.
Qed.

Lemma segment_is_label (current_month : Z) (row : DataRow) :
  In (segment current_month row) segment_labels.
Proof.
  unfold segment, segment_labels.
  destruct (6 <? Total_Visits row), (month_eq (Recency_Month row) current_month);
    cbn; auto.
Qed.

Lemma loop_total (current_month : Z) (data : list DataRow) (d : dict) :
  NoDup (map fst d) -> map fst d = segment_labels ->
  dict_total (fold_left (fun cc row => dict_incr (segment current_month row) cc) data d)
  = dict_total d + Z.of_nat (List.length data).
Proof.
  revert d. induction data as [|row data IH]; intros d Hnd Hk.
  - cbn [fold_left List.length]. lia.
  - cbn [fold_left]. rewrite IH.
    + rewrite dict_total_incr; [idtac | exact Hnd |].
      * cbn [List.length]. lia.
      * rewrite Hk. apply segment_is_label.
    + now rewrite dict_incr_keys.
    + now rewrite dict_incr_keys.
Qed.


Lemma build_data_run (frequency_data : list VisitRow) (recency_data : list RecencyRow) :
  forallb is_datetime (map Recency recency_data) = true ->
  build_data frequency_data recency_data
  = Ok (map (fun p => mkData (v_Customer_ID (fst p)) (v_Month (fst p)) (Visits (fst p))
                             (snd p)
                             (total_visits (merge_left frequency_data recency_data)
                                           (v_Customer_ID (fst p)))
                             (dt_month (snd p)))
            (merge_left frequency_data recency_data)).
Proof.
  intros Hdt. unfold build_data. now rewrite Hdt.
Qed.



(** X17.  Whenever [categorize_customers] returns, the dict has the four
    keys in their order, and the four counts add up to the number of rows
    of the joined frame. *)
Lemma categories_total (current_month : Z)
    (frequency_data : list VisitRow) (recency_data : list RecencyRow) (d : dict) :
  categorize_customers current_month frequency_data recency_data = Ok d ->
  map fst d = segment_labels /\
  dict_total d = Z.of_nat (List.length (merge_left frequency_data recency_data)).
Proof.
  unfold categorize_customers, build_data.
  destruct (forallb is_datetime (map Recency recency_data)); [|discriminate].
  intros Hd. injection Hd as <-. split.
  - now rewrite loop_keys.
  - rewrite loop_total.
    + rewrite length_map. reflexivity.
    + cbn. repeat constructor; cbn; intuition discriminate.
    + reflexivity.
Qed.

(** C2.  The dict has the four keys, but the loop runs over the rows of
    the joined frame, one per customer and month, and not over the
    customers: for the card holder of [two_months], with one visit in
    September and one in October, the visit frame has two rows and the
    counts add up to 2, for one customer. *)
Theorem categories_count_visit_rows :
  forall P : Pandas,
    let s := snd (create_customer_id 0%nat (store_of two_months)) in
    let monthly_visits := [mkVisit "1234" 9 1; mkVisit "1234" 10 1] in
    let recency_data := [mkRecency "1234" (CTime oct_1)] in
    let customer_categories :=
      [("Active Regular", 0); ("Inactive Regular", 0);
       ("Active Occasional", 2); ("Inactive Occasional", 0)] in
    exists s',
      calculate_monthly_visits 1%nat s = (Ok monthly_visits, s') /\
      calculate_recency 1%nat s' = (Ok recency_data, s') /\
      categorize_customers 10 monthly_visits recency_data = Ok customer_categories /\
      map fst customer_categories = segment_labels /\
      dict_total customer_categories = 2 /\
      List.length (nodup string_dec (map v_Customer_ID monthly_visits)) = 1%nat.
Proof.
  intros P s monthly_visits recency_data customer_categories.
  eexists. split; [reflexivity|].
  split; [reflexivity|]. repeat split.
Qed.

(** ** The order of the method calls *)

Section Preconditions.
Context `{Pandas}.

Lemma calculate_monetary_value_run (w : world) :
  let r := all_data (self w) in
  let df := map (fun x => set_Amount (to_numeric (Amount x)) x) (frames (heap w) r) in
  calculate_monetary_value w =
  match apply_rows (fun x => getcol "Customer ID" (Customer_ID x)) df with
  | Ok ids =>
      (Ok tt, mkWorld (mkMonetaryValue r (Some (sort_descending (group_sums ids df)))
                                       (action_plan (self w)))
                      (update (heap w) r df))
  | Raise e => (Raise e, mkWorld (self w) (update (heap w) r df))
  end.
Proof.
  intros r df.
  unfold calculate_monetary_value, bind, get_self, on_heap, zoom, assign, read, write,
    lift, set_monetary_data, bind.
  cbn. fold r. rewrite Nat.eqb_refl. fold df.
  destruct (apply_rows _ df); reflexivity.
Qed.

Lemma top_spenders_not_calculated (w : world) (top_percent : float) :
  monetary_data (self w) = None ->
  identify_top_spending_customers top_percent w = (Raise not_calculated, w).
Proof.
  intros Hmd. unfold identify_top_spending_customers, bind, get_self, raise.
  now rewrite Hmd.
Qed.

Lemma action_plan_not_calculated (w : world) :
  monetary_data (self w) = None ->
  generate_action_plan w = (Raise not_calculated, w).
Proof.
  intros Hmd. unfold generate_action_plan, bind, get_self, raise.
  now rewrite Hmd.
Qed.

(** The selection only reads, and once the totals are there whatever it
    raises comes from the arithmetic. *)
Lemma top_spenders_calculated (w : world) (top_percent : float) (md : list MonetaryRow) :
  monetary_data (self w) = Some md ->
  snd (identify_top_spending_customers top_percent w) = w /\
  fst (identify_top_spending_customers top_percent w) <> Raise not_calculated.
Proof.
  intros Hmd. unfold identify_top_spending_customers, bind, get_self, lift, ret.
  rewrite Hmd. unfold float_of_int.
  destruct (binary_normalize prec emax (Z.of_nat (List.length md)) 0 false) as [z|z| |z m e];
    cbn [fst snd]; try (split; [reflexivity | discriminate]);
    match goal with
    | |- context [py_int ?x] => destruct x
    end; cbn [py_int fst snd]; split; try reflexivity; discriminate.
Qed.

(** C9.  On an object whose totals have not been computed, the selection
    of top spenders and the action plan both raise the [ValueError] whose
    message names [calculate_monetary_value()], return nothing, and leave
    the object and the frames as they were; a new object is in that state.
    Once [calculate_monetary_value] has returned, neither call raises that
    error, before or after the plan is generated. *)
Theorem precondition_errors :
  (forall w top_percent, monetary_data (self w) = None ->
     identify_top_spending_customers top_percent w = (Raise not_calculated, w)) /\
  (forall w, monetary_data (self w) = None ->
     generate_action_plan w = (Raise not_calculated, w)) /\
  (forall all_data s, monetary_data (self (construct all_data s)) = None) /\
  (exists msg, not_calculated = ValueError msg /\
               String.index 0 "calculate_monetary_value()" msg <> None) /\
  (forall w w', calculate_monetary_value w = (Ok tt, w') ->
     (forall top_percent,
        fst (identify_top_spending_customers top_percent w') <> Raise not_calculated) /\
     exists w'', generate_action_plan w' = (Ok tt, w'') /\
       forall top_percent,
         fst (identify_top_spending_customers top_percent w'') <> Raise not_calculated).
Proof.
  split; [|split; [|split; [|split]]].
  - exact top_spenders_not_calculated.
  - exact action_plan_not_calculated.
  - reflexivity.
  - eexists. split; [reflexivity|]. vm_compute. discriminate.
  - intros w w' Hrun. rewrite calculate_monetary_value_run in Hrun.
    destruct (apply_rows _ _) as [ids|e]; [|discriminate].
    injection Hrun as <-.
    split.
    + intros p. eapply top_spenders_calculated. reflexivity.
    + eexists. split.
      * apply generate_action_plan_run. reflexivity.
      * intros p. eapply top_spenders_calculated. reflexivity.
Qed.

End Preconditions.

Lemma precondition_errors_witness :
  let w := construct 0%nat (store_of test_data) in
  let w' := snd (@calculate_monetary_value plain_text w) in
  identify_top_spending_customers f40 w = (Raise not_calculated, w) /\
  generate_action_plan w = (Raise not_calculated, w) /\
  fst (identify_top_spending_customers f40 w') <> Raise not_calculated.
Proof.
  intros w w'. split; [|split].
  - apply (proj1 (precondition_errors (H := plain_text))). reflexivity.
  - apply (proj1 (proj2 (precondition_errors (H := plain_text)))). reflexivity.
  - apply (proj1 (proj2 (proj2 (proj2 (proj2 (precondition_errors (H := plain_text))))) w w'
                   eq_refl)).
Defined.

(** ** Monetary value *)






Lemma Zsum_perm (l l' : list Z) :
  Permutation l l' -> fold_right Z.add 0 l = fold_right Z.add 0 l'.
Proof.
  induction 1 as [|x l l' _ IH|x y l|l l' l'' _ IH1 _ IH2]; cbn; lia.
Qed.

(** *** Wrapping sums *)




(** *** Sums of floats without rounding *)



Section Monetary.
Context `{Pandas}.












End Monetary.

Local Open Scope Q_scope.



(** Two amounts of [2 ^ 62] in an integer column: the total wraps around
    to [- 2 ^ 63]. *)
Lemma int64_totals_wrap :
  let w := construct 0%nat (store_of two_large) in
  exists w' md,
    @calculate_monetary_value plain_text w = (Ok tt, w') /\
    monetary_data (self w') = Some md /\
    total_in "1234" md = Some (inject_Z (- 2 ^ 63)) /\
    @spend_of plain_text "1234" two_large == inject_Z (2 ^ 63) /\
    @adds_exactly plain_text "1234" two_large = false.
Proof.
  intros w. do 2 eexists.
  split; [vm_compute; reflexivity|]. split; [reflexivity|].
  split; [vm_compute; reflexivity|]. split; vm_compute; reflexivity.
Qed.

Local Close Scope Q_scope.

(** ** What the operations do to the frames they are given *)

Section Frames.
Context `{Pandas}.

Lemma init_run (all_data : ref) (s : store) :
  exists s',
    __init__ all_data s = (Ok (mkMonetaryValue (next s) None None), s') /\
    next s' = S (next s) /\
    frames s' (next s) = frames s all_data /\
    forall r, r <> next s -> frames s' r = frames s r.
Proof.
  unfold __init__, copy, read, alloc, bind, ret. cbn.
  eexists. split; [reflexivity|]. cbn. rewrite Nat.eqb_refl.
  split; [reflexivity|]. split; [reflexivity|].
  intros r Hr. apply Nat.eqb_neq in Hr. now rewrite Hr.
Qed.

(** Identity resolution and the constructor of [MonetaryValue] work on a
    copy, the recency computation and the queries only read, and
    [calculate_monetary_value] writes to the object's own copy: none of
    them changes a frame that was there before. *)
Lemma copies_leave_frames_alone :
  (forall s all_data r, r <> next s ->
     frames (snd (create_customer_id all_data s)) r = frames s r) /\
  (forall s all_data, snd (calculate_recency all_data s) = s) /\
  (forall s all_data r, r <> next s ->
     frames (heap (construct all_data s)) r = frames s r) /\
  (forall s all_data r, r <> next s ->
     frames (heap (snd (calculate_monetary_value (construct all_data s)))) r
     = frames s r) /\
  (forall w top_percent, heap (snd (identify_top_spending_customers top_percent w)) = heap w) /\
  (forall w, heap (snd (generate_action_plan w)) = heap w).
Proof.
  split; [|split; [|split; [|split; [|split]]]].
  - intros s all_data r Hr.
    destruct (create_customer_id_run all_data s) as [s' [Hrun [_ [_ Hold]]]].
    rewrite Hrun. cbn. now apply Hold.
  - intros s all_data. now rewrite calculate_recency_run.
  - intros s all_data r Hr. unfold construct.
    destruct (init_run all_data s) as [s' [Hrun [_ [_ Hold]]]].
    rewrite Hrun. cbn. now apply Hold.
  - intros s all_data r Hr. rewrite calculate_monetary_value_run.
    unfold construct.
    destruct (init_run all_data s) as [s' [Hrun [_ [_ Hold]]]].
    rewrite Hrun. cbn [self heap MonetaryValue.all_data].
    apply Nat.eqb_neq in Hr.
    destruct (apply_rows _ _); cbn [snd heap update frames]; rewrite Hr;
      apply Hold; now apply Nat.eqb_neq.
  - intros w p. unfold identify_top_spending_customers, bind, get_self, raise, lift, ret.
    destruct (monetary_data (self w)); [|reflexivity].
    destruct (float_of_int _); [|reflexivity].
    destruct (py_int _); reflexivity.
  - intros w. destruct (monetary_data (self w)) as [md|] eqn:E.
    + now rewrite (generate_action_plan_run w md E).
    + now rewrite (action_plan_not_calculated w E).
Qed.

End Frames.

(** C10.  [calculate_monthly_visits] assigns to the columns of the frame
    that it is given, which is the caller's: afterwards every row holds the
    parsed date in place of the ingested one and a [Month] column is there.
    On the frame that [create_customer_id] makes of the test data, the
    three ingested dates have become [NaT]. *)
Theorem monthly_visits_rewrite_the_table :
  forall P : Pandas,
    (forall s all_data,
       frames (snd (calculate_monthly_visits all_data s)) all_data
       = map after_visits (frames s all_data)) /\
    let s := snd (create_customer_id 0%nat (store_of sample_data)) in
    let s' := snd (calculate_monthly_visits 1%nat s) in
    map Paid_Date (frames s 1%nat)
    = [CStr "2024-10-01 10:00:00"; CStr "2024-09-15 14:00:00"; CStr "2024-08-20 17:00:00"] /\
    map Month (frames s 1%nat) = [None; None; None] /\
    map Paid_Date (frames s' 1%nat)
    = map (fun d => match strptime d with Some t => CTime t | None => CNaT end)
          ["2024-10-01 10:00:00"; "2024-09-15 14:00:00"; "2024-08-20 17:00:00"] /\
    map Month (frames s' 1%nat) <> [None; None; None] /\
    frames s' 1%nat <> frames s 1%nat.
Proof.
  intros P. split.
  - intros s all_data.
    destruct (calculate_monthly_visits_run all_data s) as [s' [Hrun [_ [Hnew _]]]].
    now rewrite Hrun.
  - intros s s'. split; [reflexivity|]. split; [reflexivity|].
    split; [reflexivity|]. split.
    + cbn. discriminate.
    + intros Heq. apply (f_equal (map Month)) in Heq. cbn in Heq. discriminate.
Qed.

(** ** Top spenders *)

(** C5.  With a hundred customers and [top_percent = 29] the selection
    has 28 rows, not [floor(100 * 29 / 100) = 29]: [29 / 100] and the
    product are rounded to binary64 before [int] truncates.  The run of
    [testMVAnalysis.py] (five customers, 40 percent) gives the two rows it
    expects, and 0 percent gives no row. *)
Theorem top_spenders_float_rounding :
  forall P : Pandas,
    let w := snd (calculate_monetary_value (construct 0%nat (store_of hundred_customers))) in
    let w5 := snd (calculate_monetary_value (construct 0%nat (store_of test_data))) in
    option_map (@List.length _) (monetary_data (self w)) = Some 100%nat /\
    (exists rows, identify_top_spending_customers f29 w = (Ok rows, w) /\
                  List.length rows = 28%nat) /\
    Z.of_nat 100 * 29 / 100 = 29 /\
    (exists rows, identify_top_spending_customers f40 w5 = (Ok rows, w5) /\
                  map m_Customer_ID rows = ["C1"; "C5"]) /\
    identify_top_spending_customers f0 w = (Ok [], w).
Proof.
  intros P w w5. split; [vm_compute; reflexivity|]. split.
  - eexists. split; [vm_compute; reflexivity | vm_compute; reflexivity].
  - split; [reflexivity|]. split.
    + eexists. split; vm_compute; reflexivity.
    + vm_compute. reflexivity.
Qed.

(** * Further properties of the code *)

(** ** Sorted tables *)

Section SortedFacts.
Context {A : Type} (leb : A -> A -> bool).
Hypothesis leb_total : forall a b, leb a b = false -> leb b a = true.
Hypothesis leb_trans : forall a b c, leb a b = true -> leb b c = true -> leb a c = true.

Lemma insert_sorted_sorted (a : A) (l : list A) :
  StronglySorted (fun x y => leb x y = true) l ->
  StronglySorted (fun x y => leb x y = true) (insert_sorted leb a l).
Proof.
  induction l as [|b l IH]; intros Hs; cbn.
  - constructor; constructor.
  - apply StronglySorted_inv in Hs. destruct Hs as [Hs Hb].
    destruct (leb a b) eqn:E.
    + constructor; [constructor; assumption|].
      constructor; [exact E|].
      rewrite Forall_forall in *. intros x Hx. eapply leb_trans; [exact E | now apply Hb].
    + constructor; [now apply IH|].
      rewrite Forall_forall in *. intros x Hx.
      apply (Permutation_in _ (insert_sorted_perm leb a l)) in Hx.
      destruct Hx as [<-|Hx]; [now apply leb_total | now apply Hb].
Qed.

Lemma sort_sorted (l : list A) : StronglySorted (fun x y => leb x y = true) (sort leb l).
Proof.
  induction l as [|a l IH]; cbn; [constructor | now apply insert_sorted_sorted].
Qed.

End SortedFacts.


Lemma sort_descending_sorted (md : list MonetaryRow) :
  StronglySorted spends_at_least (sort_descending md).
Proof.
  unfold sort_descending.
  eapply StronglySorted_ind
    with (P := fun l => StronglySorted spends_at_least l);
    [constructor | | apply sort_sorted].
  - intros a l _ IH Hall. constructor; [exact IH|].
    rewrite Forall_forall in *. intros x Hx. apply Qleb_true. now apply Hall.
  - intros a b Hf. apply Qleb_false in Hf. apply Qleb_true. now apply Qlt_le_weak.
  - intros a b c H1 H2. apply Qleb_true in H1, H2. apply Qleb_true.
    eapply Qle_trans; eassumption.
Qed.

Section Ranking.
Context `{Pandas}.

(** X1.  [calculate_monetary_value] leaves the monetary table in
    descending order of total spend. *)
Theorem monetary_table_descending (w w' : world) :
  calculate_monetary_value w = (Ok tt, w') ->
  exists md, monetary_data (self w') = Some md /\ StronglySorted spends_at_least md.
Proof.
  intros Hrun. rewrite calculate_monetary_value_run in Hrun.
  destruct (apply_rows _ _) as [ids|e]; [|discriminate].
  injection Hrun as <-. eexists. split; [reflexivity|].
  apply sort_descending_sorted.
Qed.



End Ranking.

Lemma monetary_table_descending_witness :
  let w := construct 0%nat (store_of test_data) in
  exists md,
    monetary_data (self (snd (@calculate_monetary_value plain_text w))) = Some md /\
    StronglySorted spends_at_least md.
Proof.
  intros w.
  apply (monetary_table_descending (H := plain_text) w
           (snd (@calculate_monetary_value plain_text w))).
  reflexivity.
Defined.


(** ** Bands and the action plan *)

(** X3.  A customer who spent at least as much as another is never put in
    a lower band. *)
Theorem action_band_monotone (v v' : Q) :
  (v <= v')%Q -> band_rank (_assign_action v) <= band_rank (_assign_action v').
Proof.
  intros Hle. unfold _assign_action.
  destruct (Qltb 1000 v) eqn:?, (Qleb 500 v) eqn:?, (Qleb v 1000) eqn:?,
           (Qleb 100 v) eqn:?, (Qltb v 500) eqn:?;
  destruct (Qltb 1000 v') eqn:?, (Qleb 500 v') eqn:?, (Qleb v' 1000) eqn:?,
           (Qleb 100 v') eqn:?, (Qltb v' 500) eqn:?;
  cbn [andb]; q_bool; try (cbn; lia); exfalso; lra.
Qed.

Lemma action_band_monotone_witness :
  band_rank (_assign_action 300) <= band_rank (_assign_action 800).
Proof.
  apply (action_band_monotone 300 800). discriminate.
Defined.

Lemma sorted_map {A B} (R : A -> A -> Prop) (R' : B -> B -> Prop) (f : A -> B) (l : list A) :
  (forall a b, R a b -> R' (f a) (f b)) ->
  StronglySorted R l -> StronglySorted R' (map f l).
Proof.
  intros Hf. induction 1 as [|a l _ IH Hall]; cbn; constructor; [exact IH|].
  rewrite Forall_forall in *. intros y Hy. apply in_map_iff in Hy.
  destruct Hy as [x [<- Hx]]. apply Hf. now apply Hall.
Qed.

Section ActionPlan.
Context `{Pandas}.

(** X4.  After [calculate_monetary_value], [generate_action_plan] stores a
    plan that has the customers and the totals of the monetary table, row
    for row; the bands never rise from one row of the plan to a later one;
    the monetary table is left as it was; and generating the plan again
    changes nothing. *)
Theorem action_plan_follows_the_table (w w1 : world) :
  calculate_monetary_value w = (Ok tt, w1) ->
  exists w2 md ap,
    generate_action_plan w1 = (Ok tt, w2) /\
    monetary_data (self w1) = Some md /\
    monetary_data (self w2) = Some md /\
    action_plan (self w2) = Some ap /\
    map (fun r => (a_Customer_ID r, a_Total_Monetary_Value r)) ap
    = map (fun r => (m_Customer_ID r, Total_Monetary_Value r)) md /\
    StronglySorted (fun a b => plan_rank b <= plan_rank a) ap /\
    generate_action_plan w2 = (Ok tt, w2).
Proof.
  intros Hrun.
  destruct (monetary_table_descending w w1 Hrun) as [md [Hmd Hsorted]].
  eexists. exists md. eexists.
  split; [apply (generate_action_plan_run w1 md Hmd)|].
  split; [exact Hmd|]. split; [reflexivity|]. split; [reflexivity|]. split.
  - rewrite map_map. reflexivity.
  - split.
    + eapply sorted_map; [|exact Hsorted].
      intros a b Hab. cbn. now apply action_band_monotone.
    + exact (generate_action_plan_run
               (mkWorld (mkMonetaryValue (MonetaryValue.all_data (self w1)) (Some md) _)
                        (heap w1)) md eq_refl).
Qed.

Lemma to_numeric_idempotent (c : cell) : to_numeric (to_numeric c) = to_numeric c.
Proof.
  destruct c; cbn; try reflexivity. destruct (parse_numeric s) as [[z|q]|]; reflexivity.
Qed.

(** X5.  Running [calculate_monetary_value] a second time gives the same
    outcome and leaves the object and every frame as the first run left
    them: amounts that are numbers already stay as they are. *)
Theorem calculate_monetary_value_twice (w : world) :
  let w1 := snd (calculate_monetary_value w) in
  fst (calculate_monetary_value w1) = fst (calculate_monetary_value w) /\
  self (snd (calculate_monetary_value w1)) = self w1 /\
  forall r, frames (heap (snd (calculate_monetary_value w1))) r = frames (heap w1) r.
Proof.
  intros w1. subst w1. rewrite (calculate_monetary_value_run w).
  set (r0 := MonetaryValue.all_data (self w)).
  set (df1 := map (fun x => set_Amount (to_numeric (Amount x)) x) (frames (heap w) r0)).
  assert (Hdf : map (fun x => set_Amount (to_numeric (Amount x)) x) df1 = df1).
  { unfold df1. rewrite map_map. apply map_ext. intros x.
    unfold set_Amount. cbn. now rewrite to_numeric_idempotent. }
  assert (Hframe : forall r, frames (update (update (heap w) r0 df1) r0 df1) r
                             = frames (update (heap w) r0 df1) r).
  { intros r. cbn. destruct (Nat.eqb r r0); reflexivity. }
  destruct (apply_rows (fun x => getcol "Customer ID" (Customer_ID x)) df1) as [ids|e] eqn:E;
    cbn [fst snd]; rewrite calculate_monetary_value_run;
    cbn [self heap MonetaryValue.all_data update frames]; fold r0;
    rewrite Nat.eqb_refl; fold df1; rewrite Hdf, E; cbn [fst snd self heap];
    (split; [reflexivity|]); (split; [reflexivity|]); exact Hframe.
Qed.

End ActionPlan.

Lemma action_plan_follows_the_table_witness :
  let w := construct 0%nat (store_of test_data) in
  let w1 := snd (@calculate_monetary_value plain_text w) in
  exists w2 md ap,
    generate_action_plan w1 = (Ok tt, w2) /\
    monetary_data (self w1) = Some md /\
    monetary_data (self w2) = Some md /\
    action_plan (self w2) = Some ap /\
    map (fun r => (a_Customer_ID r, a_Total_Monetary_Value r)) ap
    = map (fun r => (m_Customer_ID r, Total_Monetary_Value r)) md /\
    StronglySorted (fun a b => plan_rank b <= plan_rank a) ap /\
    generate_action_plan w2 = (Ok tt, w2).
Proof.
  intros w w1.
  apply (action_plan_follows_the_table (H := plain_text) w w1). reflexivity.
Defined.

(** ** The bars of the action plan *)

Lemma unique_spec (l seen : list string) :
  NoDup (unique seen l) /\
  forall v, In v (unique seen l) <-> In v l /\ ~ In v seen.
Proof.
  revert seen. induction l as [|a l IH]; intros seen; cbn [unique].
  - split; [constructor|]. intros v. cbn. tauto.
  - destruct (existsb (String.eqb a) seen) eqn:E.
    + apply existsb_exists in E. destruct E as [b [Hb Hab]].
      apply String.eqb_eq in Hab. subst b.
      destruct (IH seen) as [Hnd Hin]. split; [exact Hnd|].
      intros v. rewrite Hin. cbn. split; [tauto|].
      intros [[<-|Hv] Hn]; [contradiction | tauto].
    + assert (Ha : ~ In a seen).
      { intros Hin.
        assert (Ht : existsb (String.eqb a) seen = true).
        { apply existsb_exists. exists a. split; [exact Hin | apply String.eqb_refl]. }
        congruence. }
      clear E. destruct (IH (a :: seen)) as [Hnd Hin]. split.
      * constructor; [|exact Hnd]. rewrite Hin. cbn. tauto.
      * intros v. cbn. rewrite Hin. cbn. split.
        -- intros [<-|[Hv Hn]]; [tauto|]. split; [tauto|]. intros Hs. apply Hn. now right.
        -- intros [[<-|Hv] Hn]; [now left|].
           destruct (string_dec a v) as [->|Hne]; [now left|]. right. split; [exact Hv|].
           intros [Heq|Hs]; [contradiction | contradiction].
Qed.

Lemma filter_all {A} (l : list A) : filter (fun _ => true) l = l.
Proof.
  induction l as [|a l IH]; cbn; [reflexivity | now rewrite IH].
Qed.

(** [value_counts] has one entry for each distinct value, the most
    frequent first, each value counted at least once, and the counts add
    up to the length of the column. *)
Lemma value_counts_spec (column : list string) :
  NoDup (map fst (value_counts column)) /\
  (forall b, In b (value_counts column) -> In (fst b) column /\ 1 <= snd b) /\
  StronglySorted (fun a b => snd b <= snd a) (value_counts column) /\
  dict_total (value_counts column) = Z.of_nat (List.length column).
Proof.
  unfold value_counts.
  set (entries := map (fun v => (v, Z.of_nat (count_occ string_dec column v)))
                      (unique [] column)).
  set (leb := fun a b : string * Z => snd b <=? snd a).
  pose proof (sort_perm leb entries) as Hperm.
  destruct (unique_spec column []) as [Hnd Hin].
  assert (Hkeys : map fst entries = unique [] column).
  { unfold entries. rewrite map_map. cbn. apply map_id. }
  split; [|split; [|split]].
  - eapply Permutation_NoDup; [apply Permutation_map; symmetry; exact Hperm|].
    now rewrite Hkeys.
  - intros b Hb. apply (Permutation_in _ Hperm) in Hb.
    apply in_map_iff in Hb. destruct Hb as [v [<- Hv]]. cbn.
    apply Hin in Hv. destruct Hv as [Hv _]. split; [exact Hv|].
    apply (count_occ_In string_dec) in Hv. lia.
  - eapply StronglySorted_ind
      with (P := fun l => StronglySorted (fun a b => snd b <= snd a) l);
      [constructor | | apply (sort_sorted leb)].
    + intros a l _ IH Hall. constructor; [exact IH|].
      rewrite Forall_forall in *. intros x Hx. apply Z.leb_le. now apply Hall.
    + intros a b Hf. unfold leb in *. apply Z.leb_gt in Hf. apply Z.leb_le. lia.
    + intros a b c H1 H2. unfold leb in *. apply Z.leb_le in H1, H2. apply Z.leb_le. lia.
  - unfold dict_total.
    rewrite (Zsum_perm _ _ (Permutation_map snd Hperm)).
    unfold entries. rewrite map_map. cbn [snd].
    assert (Hsum : forall l : list string,
              fold_right Z.add 0 (map (fun v => Z.of_nat (count_occ string_dec column v)) l)
              = Z.of_nat (fold_right Nat.add 0%nat (map (count_occ string_dec column) l))).
    { induction l as [|v l IH]; [reflexivity|]. cbn [map fold_right]. rewrite IH. lia. }
    rewrite Hsum. apply f_equal.
    pose proof (group_counts string_dec (fun _ => true) column (unique [] column) Hnd)
      as Hcount.
    rewrite !filter_all in Hcount. apply Hcount.
    intros k Hk. apply Hin. split; [exact Hk | intros []].
Qed.

Lemma action_is_label (v : Q) : In (_assign_action v) action_labels.
Proof.
  unfold _assign_action, action_labels.
  destruct (Qltb 1000 v); [cbn; tauto|].
  destruct (Qleb 500 v && Qleb v 1000); [cbn; tauto|].
  destruct (Qleb 100 v && Qltb v 500); cbn; tauto.
Qed.

(** X6.  [visualize_action_plans] raises the [ValueError] that names
    [generate_action_plan()] while there is no plan, also when the totals
    have been computed, and leaves the object as it was.  Once the plan is
    generated it draws one bar per action that occurs, at most four, the
    most frequent first, and the heights of the bars add up to the number
    of customers. *)
Theorem action_plan_bars :
  (forall w, action_plan (self w) = None ->
     visualize_action_plans w = (Raise not_generated, w)) /\
  (forall (P : Pandas) w w1, action_plan (self w) = None ->
     calculate_monetary_value w = (Ok tt, w1) ->
     visualize_action_plans w1 = (Raise not_generated, w1)) /\
  (forall w1 w2 md, monetary_data (self w1) = Some md ->
     generate_action_plan w1 = (Ok tt, w2) ->
     exists bars,
       visualize_action_plans w2 = (Ok bars, w2) /\
       NoDup (map fst bars) /\
       (forall b, In b bars -> In (fst b) action_labels /\ 1 <= snd b) /\
       (List.length bars <= 4)%nat /\
       StronglySorted (fun a b => snd b <= snd a) bars /\
       dict_total bars = Z.of_nat (List.length md)).
Proof.
  assert (Hnone : forall w, action_plan (self w) = None ->
                            visualize_action_plans w = (Raise not_generated, w)).
  { intros w Hap. unfold visualize_action_plans, bind, get_self, raise. now rewrite Hap. }
  split; [exact Hnone|]. split.
  - intros P w w1 Hap Hrun. apply Hnone.
    rewrite calculate_monetary_value_run in Hrun.
    destruct (apply_rows _ _); [|discriminate]. injection Hrun as <-. exact Hap.
  - intros w1 w2 md Hmd Hgen. rewrite (generate_action_plan_run w1 md Hmd) in Hgen.
    injection Hgen as <-.
    set (column := map (fun r => _assign_action (Total_Monetary_Value r)) md).
    assert (Hrun : forall w ap, action_plan (self w) = Some ap ->
              apply_rows (fun r => getcol "Action" (Action r)) ap = Ok column ->
              visualize_action_plans w = (Ok (value_counts column), w)).
    { intros w ap Hap Hcol. unfold visualize_action_plans, bind, get_self, lift, ret.
      now rewrite Hap, Hcol. }
    destruct (value_counts_spec column) as [Hnd [Hin [Hsorted Htotal]]].
    exists (value_counts column). split.
    + eapply Hrun; [reflexivity|].
      rewrite (apply_rows_map _ (fun r => match Action r with Some a => a | None => "" end)).
      * unfold column. now rewrite map_map.
      * intros y Hy. apply in_map_iff in Hy. destruct Hy as [x [<- _]]. reflexivity.
    + assert (Hlabel : forall b, In b (value_counts column) -> In (fst b) action_labels).
      { intros b Hb. destruct (Hin b Hb) as [Hc _]. unfold column in Hc.
        apply in_map_iff in Hc. destruct Hc as [r [<- _]]. apply action_is_label. }
      split; [exact Hnd|]. split; [|split; [|split]].
      * intros b Hb. split; [now apply Hlabel | now apply Hin].
      * rewrite <- (length_map fst).
        apply (NoDup_incl_length Hnd (l' := action_labels)).
        intros v Hv. apply in_map_iff in Hv. destruct Hv as [b [<- Hb]]. now apply Hlabel.
      * exact Hsorted.
      * rewrite Htotal. unfold column. now rewrite length_map.
Qed.

Lemma action_plan_bars_witness :
  let w := construct 0%nat (store_of test_data) in
  let w1 := snd (@calculate_monetary_value plain_text w) in
  let w2 := snd (generate_action_plan w1) in
  visualize_action_plans w = (Raise not_generated, w) /\
  visualize_action_plans w1 = (Raise not_generated, w1) /\
  exists bars,
    visualize_action_plans w2 = (Ok bars, w2) /\
    NoDup (map fst bars) /\
    (forall b, In b bars -> In (fst b) action_labels /\ 1 <= snd b) /\
    (List.length bars <= 4)%nat /\
    StronglySorted (fun a b => snd b <= snd a) bars /\
    dict_total bars = Z.of_nat 5.
Proof.
  intros w w1 w2. split; [|split].
  - apply (proj1 action_plan_bars). reflexivity.
  - apply (proj1 (proj2 action_plan_bars) plain_text w w1); reflexivity.
  - apply (proj2 (proj2 action_plan_bars) w1 w2
             (sort_descending (group_sums ["C1"; "C2"; "C3"; "C4"; "C5"]
                (map (fun x => set_Amount (@to_numeric plain_text (Amount x)) x) test_data))));
      reflexivity.
Defined.

(** ** The groups of the visit frame *)

Section VisitGroups.
Context `{Pandas}.

Lemma count_visit_key (c : string) (m : Z) (df : DataFrame) :
  count_occ key2_dec (flat_map visit_key df) (c, m)
  = List.length (filter (in_group c m) df).
Proof.
  induction df as [|x df IH]; [reflexivity|].
  cbn [flat_map filter]. rewrite count_occ_app, IH.
  unfold visit_key, in_group, has_id.
  destruct (Customer_ID x) as [c'|]; [|reflexivity].
  destruct (dt_month (to_datetime (Paid_Date x))) as [m'|].
  - cbn [count_occ]. destruct (key2_dec (c', m') (c, m)) as [E|E].
    + injection E as -> ->. now rewrite String.eqb_refl, Z.eqb_refl.
    + destruct (String.eqb c' c) eqn:Ec; [|reflexivity].
      destruct (m' =? m) eqn:Em; [|reflexivity].
      apply String.eqb_eq in Ec. apply Z.eqb_eq in Em. subst. contradiction.
  - now rewrite andb_false_r.
Qed.

Lemma visit_key_in (c : string) (m : Z) (df : DataFrame) :
  In (c, m) (flat_map visit_key df) <-> exists x, In x df /\ in_group c m x = true.
Proof.
  rewrite in_flat_map. split; intros [x [Hx Hk]]; exists x; (split; [exact Hx|]);
    unfold visit_key, in_group, has_id in *;
    destruct (Customer_ID x) as [c'|]; try (now destruct Hk); try discriminate;
    destruct (dt_month (to_datetime (Paid_Date x))) as [m'|];
    try (now destruct Hk); try (now rewrite andb_false_r in Hk).
  - destruct Hk as [E|[]]. injection E as -> ->.
    now rewrite String.eqb_refl, Z.eqb_refl.
  - apply andb_true_iff in Hk. destruct Hk as [Ec Em].
    apply String.eqb_eq in Ec. apply Z.eqb_eq in Em. subst. now left.
Qed.

(** X7.  The visit frame has one row for every pair of a customer and a
    month in which one of the customer's timestamps parses, and no other;
    the pairs are distinct, and the count of a row is the number of the
    customer's rows in that month, at least 1. *)
Theorem monthly_visit_groups (all_data : ref) (s : store) :
  (forall x, In x (frames s all_data) -> Customer_ID x <> None) ->
  exists monthly_visits s',
    calculate_monthly_visits all_data s = (Ok monthly_visits, s') /\
    NoDup (map visit_row_key monthly_visits) /\
    (forall v, In v monthly_visits ->
       Visits v
       = Z.of_nat (List.length
                     (filter (in_group (v_Customer_ID v) (v_Month v)) (frames s all_data))) /\
       1 <= Visits v) /\
    (forall c m, In (c, m) (map visit_row_key monthly_visits)
                 <-> exists x, In x (frames s all_data) /\ in_group c m x = true).
Proof.
  intros Hid.
  destruct (calculate_monthly_visits_run all_data s) as [s' [Hrun _]].
  rewrite (visit_keys_after _ Hid) in Hrun.
  set (ks := flat_map visit_key (frames s all_data)) in *.
  destruct (group_keys2_spec ks) as [Hnd Hin].
  assert (Hkeys : map visit_row_key (group_sizes ks) = group_keys2 ks).
  { unfold group_sizes. rewrite map_map. unfold visit_row_key. cbn.
    rewrite <- (map_id (group_keys2 ks)) at 2. apply map_ext. now intros [c m]. }
  eexists. exists s'. split; [exact Hrun|]. rewrite Hkeys.
  split; [exact Hnd|]. split.
  - intros v Hv. unfold group_sizes in Hv. apply in_map_iff in Hv.
    destruct Hv as [[c m] [<- Hk]]. cbn [Visits v_Customer_ID v_Month fst snd].
    apply Hin in Hk. split.
    + unfold ks. now rewrite count_visit_key.
    + apply (count_occ_In key2_dec) in Hk. lia.
  - intros c m. rewrite Hin. apply visit_key_in.
Qed.

Lemma to_datetime_idempotent (c : cell) : to_datetime (to_datetime c) = to_datetime c.
Proof.
  destruct (to_datetime_cases c) as [-> | [t ->]]; reflexivity.
Qed.

Lemma after_visits_idempotent (x : Row) : after_visits (after_visits x) = after_visits x.
Proof.
  unfold after_visits, set_Month, set_Paid_Date. cbn.
  now rewrite to_datetime_idempotent.
Qed.

(** X8.  Running [calculate_monthly_visits] again on the frame that it has
    already rewritten, as the report does, returns the same visit frame
    and changes no frame, and [calculate_recency] then returns what it
    returned before. *)
Theorem aggregation_repeatable (all_data : ref) (s : store) :
  let s1 := snd (calculate_monthly_visits all_data s) in
  let s2 := snd (calculate_monthly_visits all_data s1) in
  fst (calculate_monthly_visits all_data s1) = fst (calculate_monthly_visits all_data s) /\
  (forall r, frames s2 r = frames s1 r) /\
  fst (calculate_recency all_data s2) = fst (calculate_recency all_data s1).
Proof.
  intros s1 s2. subst s2 s1.
  destruct (calculate_monthly_visits_run all_data s) as [s1 [Hrun1 [_ [Hnew1 _]]]].
  rewrite Hrun1. cbn [fst snd].
  destruct (calculate_monthly_visits_run all_data s1) as [s2 [Hrun2 [_ [Hnew2 Hold2]]]].
  rewrite Hrun2. cbn [fst snd].
  assert (Hsame : map after_visits (frames s1 all_data) = frames s1 all_data).
  { rewrite Hnew1, map_map. apply map_ext. apply after_visits_idempotent. }
  assert (Hframes : forall r, frames s2 r = frames s1 r).
  { intros r. destruct (Nat.eq_dec r all_data) as [->|Hr].
    - now rewrite Hnew2, Hsame.
    - now apply Hold2. }
  split; [|split].
  - now rewrite Hsame, Hnew1.
  - exact Hframes.
  - rewrite !calculate_recency_run. cbn [fst]. now rewrite Hframes.
Qed.

Lemma missing_customer_id_raises (df : DataFrame) :
  (exists x, In x df /\ Customer_ID x = None) ->
  apply_rows (fun x => getcol "Customer ID" (Customer_ID x)) df
  = Raise (KeyError "Customer ID").
Proof.
  induction df as [|x df IH]; intros [y [Hy Hnone]]; [destruct Hy|].
  cbn [apply_rows]. destruct (Customer_ID x) as [c|] eqn:E; cbn [getcol]; [|reflexivity].
  destruct Hy as [->|Hy]; [congruence|].
  rewrite IH; [reflexivity|]. exists y. split; assumption.
Qed.

(** X9.  On a frame that has a row without a customer identity, as the
    ingested frame before [create_customer_id], the three aggregations
    raise [KeyError('Customer ID')].  [calculate_recency] leaves the frame
    alone, but [calculate_monthly_visits] has rewritten the dates by then,
    and [calculate_monetary_value] has rewritten the amounts of the
    object's frame; the monetary table of the object stays as it was. *)
Theorem missing_customer_id (all_data : ref) (s : store) :
  (exists x, In x (frames s all_data) /\ Customer_ID x = None) ->
  (exists s',
     calculate_monthly_visits all_data s = (Raise (KeyError "Customer ID"), s') /\
     frames s' all_data = map after_visits (frames s all_data)) /\
  calculate_recency all_data s = (Raise (KeyError "Customer ID"), s) /\
  forall mv,
    MonetaryValue.all_data mv = all_data ->
    exists w',
      calculate_monetary_value (mkWorld mv s) = (Raise (KeyError "Customer ID"), w') /\
      monetary_data (self w') = monetary_data mv /\
      action_plan (self w') = action_plan mv /\
      frames (heap w') all_data
      = map (fun x => set_Amount (to_numeric (Amount x)) x) (frames s all_data).
Proof.
  intros [x [Hx Hnone]]. split; [|split].
  - destruct (calculate_monthly_visits_run all_data s) as [s' [Hrun [_ [Hnew _]]]].
    exists s'. split; [|exact Hnew]. rewrite Hrun. unfold visit_keys.
    rewrite missing_customer_id_raises; [reflexivity|].
    exists (after_visits x). split; [now apply in_map | exact Hnone].
  - rewrite calculate_recency_run. rewrite missing_customer_id_raises; [reflexivity|].
    exists x. split; assumption.
  - intros mv Hmv. rewrite calculate_monetary_value_run.
    cbn [self heap]. rewrite Hmv. rewrite missing_customer_id_raises.
    + eexists. split; [reflexivity|]. cbn. rewrite Nat.eqb_refl. repeat split.
    + exists (set_Amount (to_numeric (Amount x)) x). split; [|exact Hnone].
      exact (in_map (fun x => set_Amount (to_numeric (Amount x)) x) _ x Hx).
Qed.

End VisitGroups.

Lemma monthly_visit_groups_witness :
  let s := snd (@create_customer_id plain_text 0%nat (store_of mixed_dates)) in
  exists monthly_visits s',
    @calculate_monthly_visits plain_text 1%nat s = (Ok monthly_visits, s') /\
    NoDup (map visit_row_key monthly_visits) /\
    (forall v, In v monthly_visits ->
       Visits v
       = Z.of_nat (List.length
                     (filter (@in_group plain_text (v_Customer_ID v) (v_Month v))
                             (frames s 1%nat))) /\
       1 <= Visits v) /\
    (forall c m, In (c, m) (map visit_row_key monthly_visits)
                 <-> exists x, In x (frames s 1%nat) /\ @in_group plain_text c m x = true).
Proof.
  intros s.
  apply (monthly_visit_groups (H := plain_text) 1%nat s).
  intros x [<-|[<-|[<-|[]]]]; discriminate.
Defined.

Lemma missing_customer_id_witness :
  let s := store_of sample_data in
  (exists s',
     @calculate_monthly_visits plain_text 0%nat s = (Raise (KeyError "Customer ID"), s') /\
     frames s' 0%nat = map (@after_visits plain_text) (frames s 0%nat)) /\
  @calculate_recency plain_text 0%nat s = (Raise (KeyError "Customer ID"), s).
Proof.
  intros s.
  destruct (missing_customer_id (H := plain_text) 0%nat s) as [Hv [Hr _]].
  - exists (ingested (CStr "2024-10-01 10:00:00") (CStr "25.00") (CStr "Credit") (CStr "1234")).
    split; [now left | reflexivity].
  - split; [exact Hv | exact Hr].
Defined.

(** ** The pipeline as [main] composes it *)

Lemma datetime_max_is_datetime (cs : list cell) : is_datetime (datetime_max cs) = true.
Proof.
  destruct (datetime_max_spec cs) as [[-> _] | [m [-> _]]]; reflexivity.
Qed.

(** A customer has one recency row, which is the one the merge finds. *)
Lemma recency_of_customer (G : string -> cell) (keys : list string) (c : string) :
  NoDup keys -> In c keys ->
  filter (fun r => String.eqb (r_Customer_ID r) c) (map (fun k => mkRecency k (G k)) keys)
  = [mkRecency c (G c)].
Proof.
  induction keys as [|k keys IH]; intros Hnd Hin; [destruct Hin|].
  inversion Hnd as [|? ? Hnotin Hnd']; subst.
  cbn [map filter r_Customer_ID].
  destruct (String.eqb k c) eqn:E.
  - apply String.eqb_eq in E. subst k. f_equal.
    clear IH Hin Hnd Hnd'. induction keys as [|k keys IH]; [reflexivity|].
    cbn [map filter r_Customer_ID].
    destruct (String.eqb k c) eqn:E.
    + apply String.eqb_eq in E. subst. exfalso. apply Hnotin. now left.
    + apply IH. intros Hin. apply Hnotin. now right.
  - destruct Hin as [->|Hin]; [now rewrite String.eqb_refl in E|].
    now apply IH.
Qed.

Lemma merge_left_matched (G : string -> cell) (keys : list string)
    (monthly_visits : list VisitRow) :
  NoDup keys ->
  (forall v, In v monthly_visits -> In (v_Customer_ID v) keys) ->
  merge_left monthly_visits (map (fun k => mkRecency k (G k)) keys)
  = map (fun v => (v, G (v_Customer_ID v))) monthly_visits.
Proof.
  intros Hnd. unfold merge_left.
  induction monthly_visits as [|v mv IH]; intros Hin; [reflexivity|].
  cbn [flat_map map].
  rewrite (recency_of_customer G keys (v_Customer_ID v) Hnd (Hin v (or_introl eq_refl))).
  cbn [map app Recency]. f_equal. apply IH. intros v' Hv'. apply Hin. now right.
Qed.

Lemma total_visits_matched (G : string -> cell) (monthly_visits : list VisitRow) (c : string) :
  total_visits (map (fun v => (v, G (v_Customer_ID v))) monthly_visits) c
  = visits_of c monthly_visits.
Proof.
  unfold total_visits, visits_of.
  induction monthly_visits as [|v mv IH]; [reflexivity|].
  cbn [map filter fst]. destruct (String.eqb (v_Customer_ID v) c); cbn [map fold_right fst];
    now rewrite IH.
Qed.

Section Pipeline.
Context `{Pandas}.

Lemma recency_after_visits (all_data : ref) (s s' : store) :
  (forall x, In x (frames s all_data) -> Customer_ID x <> None) ->
  frames s' all_data = map after_visits (frames s all_data) ->
  exists ids,
    calculate_recency all_data s'
    = (Ok (map (fun c => mkRecency c
                 (datetime_max (map (fun x => to_datetime (Paid_Date x))
                                    (rows_of c (frames s all_data)))))
               (group_keys ids)), s') /\
    forall c, In c ids <-> exists x, In x (frames s all_data) /\ Customer_ID x = Some c.
Proof.
  intros Hid Hframe.
  assert (Hid' : forall x, In x (frames s' all_data) -> Customer_ID x <> None).
  { rewrite Hframe. intros y Hy. apply in_map_iff in Hy. destruct Hy as [x [<- Hx]].
    exact (Hid x Hx). }
  destruct (customer_ids _ Hid') as [ids [Hids Hin]].
  exists ids. split.
  - rewrite calculate_recency_run, Hids. f_equal. f_equal. apply map_ext. intros c.
    f_equal. rewrite Hframe. unfold column_max.
    assert (Hcol : forallb is_datetime (map Paid_Date (map after_visits (frames s all_data)))
                   = true).
    { apply forallb_forall. intros d Hd. rewrite map_map in Hd.
      apply in_map_iff in Hd. destruct Hd as [x [<- _]]. apply to_datetime_is_datetime. }
    now rewrite Hcol, rows_of_after_visits.
  - intros c. rewrite Hin, Hframe. split.
    + intros [y [Hy Hc]]. apply in_map_iff in Hy. destruct Hy as [x [<- Hx]].
      exists x. split; [exact Hx | exact Hc].
    + intros [x [Hx Hc]]. exists (after_visits x). split; [now apply in_map | exact Hc].
Qed.

(** X10.  In the order in which [main] calls them, every row of the visit
    frame finds exactly one recency row, and that row holds a timestamp:
    the merged frame has the rows of the visit frame, none with a missing
    recency; the recency of a row is one of its customer's parsed
    timestamps, its total is the number of the customer's rows that
    parse, and the counts of the categories add up to the number of rows
    of the visit frame. *)
Theorem pipeline_recency_known (current_month : Z) (all_data : ref) (s : store) :
  (forall x, In x (frames s all_data) -> Customer_ID x <> None) ->
  exists monthly_visits s' recency_data data customer_categories,
    calculate_monthly_visits all_data s = (Ok monthly_visits, s') /\
    calculate_recency all_data s' = (Ok recency_data, s') /\
    build_data monthly_visits recency_data = Ok data /\
    categorize_customers current_month monthly_visits recency_data = Ok customer_categories /\
    map (fun d => (d_Customer_ID d, d_Month d, d_Visits d)) data
    = map (fun v => (v_Customer_ID v, v_Month v, Visits v)) monthly_visits /\
    (forall d, In d data ->
       exists t,
         d_Recency d = CTime t /\
         Recency_Month d = Some (month t) /\
         In t (parsed_timestamps (d_Customer_ID d) (frames s all_data)) /\
         Total_Visits d
         = Z.of_nat (List.length (filter parses (rows_of (d_Customer_ID d)
                                                         (frames s all_data))))) /\
    dict_total customer_categories = Z.of_nat (List.length monthly_visits).
Proof.
  intros Hid.
  destruct (calculate_monthly_visits_run all_data s) as [s' [Hrun [_ [Hframe _]]]].
  rewrite (visit_keys_after _ Hid) in Hrun.
  set (df := frames s all_data) in *.
  set (ks := flat_map visit_key df) in *.
  destruct (recency_after_visits all_data s s' Hid Hframe) as [ids [Hrec Hids]].
  fold df in Hrec, Hids.
  set (G := fun c => datetime_max (map (fun x => to_datetime (Paid_Date x)) (rows_of c df)))
    in *.
  change (calculate_recency all_data s'
          = (Ok (map (fun c => mkRecency c (G c)) (group_keys ids)), s')) in Hrec.
  destruct (group_keys_spec ids) as [Hnd Hkeys].
  (* every visit row comes from a row of its customer that parses *)
  assert (Hvisit : forall v, In v (group_sizes ks) ->
            exists x, In x df /\ in_group (v_Customer_ID v) (v_Month v) x = true).
  { intros v Hv. unfold group_sizes in Hv. apply in_map_iff in Hv.
    destruct Hv as [[c m] [<- Hk]]. cbn [v_Customer_ID v_Month fst snd].
    exact (proj1 (visit_key_in c m df) (proj1 (proj2 (group_keys2_spec ks) (c, m)) Hk)). }
  assert (Hcust : forall v, In v (group_sizes ks) -> In (v_Customer_ID v) (group_keys ids)).
  { intros v Hv. destruct (Hvisit v Hv) as [x [Hx Hg]]. apply Hkeys, Hids.
    exists x. split; [exact Hx|]. unfold in_group, has_id in Hg.
    apply andb_true_iff in Hg. destruct Hg as [Hc _].
    destruct (Customer_ID x) as [c'|]; [|discriminate].
    apply String.eqb_eq in Hc. now subst. }
  pose proof (merge_left_matched G (group_keys ids) (group_sizes ks) Hnd Hcust) as Hmerge.
  assert (Hdt : forallb is_datetime
                  (map Recency (map (fun c => mkRecency c (G c)) (group_keys ids))) = true).
  { apply forallb_forall. intros d Hd. rewrite map_map in Hd. apply in_map_iff in Hd.
    destruct Hd as [c [<- _]]. apply datetime_max_is_datetime. }
  pose proof (build_data_run (group_sizes ks) _ Hdt) as Hdata.
  rewrite Hmerge in Hdata.
  eexists. exists s'. eexists. eexists. eexists.
  split; [exact Hrun|]. split; [exact Hrec|]. split; [exact Hdata|].
  split; [unfold categorize_customers; rewrite Hdata; reflexivity|].
  split; [|split].
  - rewrite !map_map. reflexivity.
  - intros d Hd. rewrite map_map in Hd. apply in_map_iff in Hd.
    destruct Hd as [v [<- Hv]]. cbn [d_Recency Recency_Month d_Customer_ID Total_Visits fst snd].
    destruct (Hvisit v Hv) as [x [Hx Hg]].
    unfold in_group in Hg. apply andb_true_iff in Hg. destruct Hg as [Hc Hm].
    assert (Hcell : exists t0, In (CTime t0)
                      (map (fun x => to_datetime (Paid_Date x)) (rows_of (v_Customer_ID v) df))).
    { destruct (to_datetime_cases (Paid_Date x)) as [Hd | [t0 Hd]].
      - rewrite Hd in Hm. discriminate.
      - exists t0. rewrite <- Hd.
        apply (in_map (fun x => to_datetime (Paid_Date x))).
        unfold rows_of. apply filter_In. split; assumption. }
    destruct Hcell as [t0 Ht0].
    destruct (datetime_max_spec
                (map (fun x => to_datetime (Paid_Date x)) (rows_of (v_Customer_ID v) df)))
      as [[_ Hno] | [m [Hmax [Hin _]]]]; [exfalso; now apply (Hno t0)|].
    exists m. rewrite (total_visits_matched G), visits_of_group_sizes.
    unfold ks. rewrite visit_keys_of_customer.
    unfold G. rewrite Hmax. split; [reflexivity|]. split; [reflexivity|].
    split; [now apply parsed_timestamps_in | reflexivity].
  - rewrite loop_total; [|cbn; repeat constructor; cbn; intuition discriminate | reflexivity].
    rewrite !length_map. cbn. lia.
Qed.

End Pipeline.

Lemma pipeline_recency_known_witness :
  let s := snd (@create_customer_id plain_text 0%nat (store_of mixed_dates)) in
  exists monthly_visits s' recency_data data customer_categories,
    @calculate_monthly_visits plain_text 1%nat s = (Ok monthly_visits, s') /\
    @calculate_recency plain_text 1%nat s' = (Ok recency_data, s') /\
    build_data monthly_visits recency_data = Ok data /\
    categorize_customers 10 monthly_visits recency_data = Ok customer_categories /\
    map (fun d => (d_Customer_ID d, d_Month d, d_Visits d)) data
    = map (fun v => (v_Customer_ID v, v_Month v, Visits v)) monthly_visits /\
    (forall d, In d data ->
       exists t,
         d_Recency d = CTime t /\
         Recency_Month d = Some (month t) /\
         In t (@parsed_timestamps plain_text (d_Customer_ID d) (frames s 1%nat)) /\
         Total_Visits d
         = Z.of_nat (List.length (filter (@parses plain_text)
                                         (rows_of (d_Customer_ID d) (frames s 1%nat))))) /\
    dict_total customer_categories = Z.of_nat (List.length monthly_visits).
Proof.
  intros s.
  apply (pipeline_recency_known (H := plain_text) 10 1%nat s).
  intros x [<-|[<-|[<-|[]]]]; discriminate.
Defined.

(** ** [main] *)

Section MainFacts.
Context `{Pandas} `{Main.Sheets}.
Import Main Loaded.

Lemma fetch_all_failure (self : FrequencyRecency) (names1 names2 : list string)
    (n message : string) (d : list (string * DataFrame)) :
  (forall n', In n' names1 ->
     exists df, get_data_from_google_sheet (sheet_id self) n' (credentials_file self) = Rows df) ->
  get_data_from_google_sheet (sheet_id self) n (credentials_file self) = Failed message ->
  fetch_all self (names1 ++ n :: names2)%list d = inl message.
Proof.
  intros Hok Hfail. revert d. induction names1 as [|n1 names1 IH]; intros d; cbn [app fetch_all].
  - now rewrite Hfail.
  - destruct (Hok n1 (or_introl eq_refl)) as [df ->].
    apply IH. intros n' Hn'. apply Hok. now right.
Qed.

(** X11.  When the service fails for a worksheet, [main] prints the
    message of that failure after ["Error: "] and does nothing else: the
    object has no data, no frame is made, and the later worksheets are not
    read into a partial run.  With no worksheet at all the error is that of
    [pd.concat]. *)
Theorem load_failure (w : process) :
  (forall names1 n names2 message,
     worksheet_names (self w) = (names1 ++ n :: names2)%list ->
     (forall n', In n' names1 ->
        exists df, get_data_from_google_sheet (sheet_id (self w)) n'
                                              (credentials_file (self w)) = Rows df) ->
     get_data_from_google_sheet (sheet_id (self w)) n (credentials_file (self w))
     = Failed message ->
     main w = mkProcess (self w) (heap w) (stdout w ++ [("Error: " ++ message)%string])%list) /\
  (worksheet_names (self w) = [] ->
   main w = mkProcess (self w) (heap w)
                      (stdout w ++ ["Error: No objects to concatenate"])%list).
Proof.
  split.
  - intros names1 n names2 message Hnames Hok Hfail.
    unfold main, try_body, and_then, get_self. cbn [fst snd].
    rewrite Hnames, (fetch_all_failure _ _ _ _ _ _ Hok Hfail). reflexivity.
  - intros Hnames. unfold main, try_body, and_then, get_self. cbn [fst snd].
    rewrite Hnames. reflexivity.
Qed.

Lemma unique_seen_ext (l seen seen' : list string) :
  (forall x, In x seen <-> In x seen') -> unique seen l = unique seen' l.
Proof.
  revert seen seen'. induction l as [|a l IH]; intros seen seen' Hext; [reflexivity|].
  cbn [unique].
  assert (Hb : existsb (String.eqb a) seen = existsb (String.eqb a) seen').
  { destruct (existsb (String.eqb a) seen) eqn:E1, (existsb (String.eqb a) seen') eqn:E2;
      try reflexivity.
    - apply existsb_exists in E1. destruct E1 as [x [Hx Hax]].
      apply Hext in Hx.
      assert (existsb (String.eqb a) seen' = true)
        by (apply existsb_exists; exists x; split; assumption).
      congruence.
    - apply existsb_exists in E2. destruct E2 as [x [Hx Hax]].
      apply Hext in Hx.
      assert (existsb (String.eqb a) seen = true)
        by (apply existsb_exists; exists x; split; assumption).
      congruence. }
  rewrite Hb. destruct (existsb (String.eqb a) seen').
  - now apply IH.
  - f_equal. apply IH. intros x. cbn. now rewrite Hext.
Qed.

Lemma dict_set_present {V} (f : string -> V) (keys : list string) (k : string) :
  In k keys ->
  dict_set k (f k) (map (fun k => (k, f k)) keys) = map (fun k => (k, f k)) keys.
Proof.
  induction keys as [|k0 keys IH]; intros Hin; [destruct Hin|].
  cbn [map dict_set]. destruct (String.eqb k0 k) eqn:E.
  - apply String.eqb_eq in E. now subst.
  - destruct Hin as [->|Hin]; [now rewrite String.eqb_refl in E|].
    now rewrite IH.
Qed.

Lemma dict_set_absent {V} (f : string -> V) (keys : list string) (k : string) :
  ~ In k keys ->
  dict_set k (f k) (map (fun k => (k, f k)) keys)
  = map (fun k => (k, f k)) (keys ++ [k])%list.
Proof.
  induction keys as [|k0 keys IH]; intros Hn; [reflexivity|].
  cbn [map dict_set app]. destruct (String.eqb k0 k) eqn:E.
  - apply String.eqb_eq in E. subst. exfalso. apply Hn. now left.
  - rewrite IH; [reflexivity|]. intros Hin. apply Hn. now right.
Qed.

(** The dict that the loop builds holds every worksheet once, at the place
    of its first mention. *)
Lemma fetch_all_success (self : FrequencyRecency) (names keys : list string) :
  (forall n, In n names ->
     exists df, get_data_from_google_sheet (sheet_id self) n (credentials_file self) = Rows df) ->
  fetch_all self names (map (fun k => (k, sheet_rows self k)) keys)
  = inr (map (fun k => (k, sheet_rows self k)) (keys ++ unique keys names)%list).
Proof.
  revert keys. induction names as [|n names IH]; intros keys Hok.
  - cbn. now rewrite app_nil_r.
  - cbn [fetch_all unique].
    destruct (Hok n (or_introl eq_refl)) as [df Hdf]. rewrite Hdf.
    assert (Hrows : df = sheet_rows self n) by (unfold sheet_rows; now rewrite Hdf).
    rewrite Hrows.
    assert (Hok' : forall n', In n' names ->
              exists df, get_data_from_google_sheet (sheet_id self) n' (credentials_file self)
                         = Rows df)
      by (intros n' Hn'; apply Hok; now right).
    destruct (existsb (String.eqb n) keys) eqn:E.
    + apply existsb_exists in E. destruct E as [x [Hx Hnx]].
      apply String.eqb_eq in Hnx. subst x.
      rewrite (dict_set_present (sheet_rows self) keys n Hx). now apply IH.
    + assert (Hn : ~ In n keys).
      { intros Hin.
        assert (existsb (String.eqb n) keys = true)
          by (apply existsb_exists; exists n; split; [exact Hin | apply String.eqb_refl]).
        congruence. }
      rewrite (dict_set_absent (sheet_rows self) keys n Hn), (IH _ Hok').
      rewrite <- app_assoc. cbn [app].
      rewrite (unique_seen_ext names (keys ++ [n]) (n :: keys)); [reflexivity|].
      intros x. rewrite in_app_iff. cbn. tauto.
Qed.

(** Once every row has an identity, the three steps after
    [create_customer_id] go through. *)
Lemma pipeline_succeeds (current_month : Z) (all_data : ref) (s : store) :
  (forall x, In x (frames s all_data) -> Customer_ID x <> None) ->
  exists monthly_visits recency_data customer_categories s',
    calculate_monthly_visits all_data s = (Ok monthly_visits, s') /\
    calculate_recency all_data s' = (Ok recency_data, s') /\
    categorize_customers current_month monthly_visits recency_data = Ok customer_categories /\
    map fst customer_categories = segment_labels /\
    next s' = next s /\
    frames s' all_data = map after_visits (frames s all_data) /\
    forall r, r <> all_data -> frames s' r = frames s r.
Proof.
  intros Hid.
  destruct (calculate_monthly_visits_run all_data s) as [s' [Hrun [Hnext [Hframe Hold]]]].
  rewrite (visit_keys_after _ Hid) in Hrun.
  destruct (recency_after_visits all_data s s' Hid Hframe) as [ids [Hrec _]].
  match type of Hrec with
  | _ = (Ok ?rec, _) =>
      assert (Hdt : forallb is_datetime (map Recency rec) = true)
  end.
  { apply forallb_forall. intros d Hd. rewrite map_map in Hd. apply in_map_iff in Hd.
    destruct Hd as [c [<- _]]. apply datetime_max_is_datetime. }
  eexists. eexists. eexists. exists s'.
  split; [exact Hrun|]. split; [exact Hrec|].
  unfold categorize_customers. rewrite (build_data_run _ _ Hdt).
  split; [reflexivity|]. split; [now rewrite loop_keys|].
  split; [exact Hnext|]. split; [exact Hframe | exact Hold].
Qed.

(** X12.  When the service gives a frame for every worksheet, [main]
    works on the rows of the worksheets, a worksheet that is named more
    than once counting once; unless there are no rows at all, it prints
    one line with the four categories and raises nothing.  Afterwards
    [self.all_data] is a new frame that holds these rows with their
    identities and with the dates parsed; the concatenated frame and every
    frame that was there before are untouched. *)
Theorem load_success (w : process) :
  worksheet_names (self w) <> [] ->
  (forall n, In n (worksheet_names (self w)) ->
     exists df, get_data_from_google_sheet (sheet_id (self w)) n
                                           (credentials_file (self w)) = Rows df) ->
  loaded_rows (self w) <> [] ->
  exists customer_categories w',
    main w = w' /\
    self w' = with_all_data (self w) (S (next (heap w))) /\
    stdout w' = (stdout w ++ [("Customer Categories: " ++ str_dict customer_categories)%string])%list /\
    map fst customer_categories = segment_labels /\
    frames (heap w') (next (heap w)) = loaded_rows (self w) /\
    frames (heap w') (S (next (heap w)))
    = map (fun x => after_visits
                      (set_Customer_ID (identity x)
                         (set_last_4_card_digits
                            (fillna_astype_str (Last_4_Card_Digits x)) x)))
          (loaded_rows (self w)) /\
    forall r, (r < next (heap w))%nat -> frames (heap w') r = frames (heap w) r.
Proof.
  intros Hnames Hok _.
  pose proof (fetch_all_success (self w) (worksheet_names (self w)) [] Hok) as Hfetch.
  cbn [map app] in Hfetch.
  assert (Hconcat : concat (map snd (map (fun k => (k, sheet_rows (self w) k))
                                        (unique [] (worksheet_names (self w)))))
                    = Ok (loaded_rows (self w))).
  { rewrite map_map. cbn [snd]. unfold loaded_rows. rewrite flat_map_concat_map.
    destruct (worksheet_names (self w)) as [|n names] eqn:E; [contradiction|].
    reflexivity. }
  enough (Hmain : exists customer_categories h',
            main w = mkProcess (with_all_data (self w) (S (next (heap w)))) h'
                       (stdout w ++ [("Customer Categories: "
                                      ++ str_dict customer_categories)%string])%list /\
            map fst customer_categories = segment_labels /\
            frames h' (next (heap w)) = loaded_rows (self w) /\
            frames h' (S (next (heap w)))
            = map (fun x => after_visits
                              (set_Customer_ID (identity x)
                                 (set_last_4_card_digits
                                    (fillna_astype_str (Last_4_Card_Digits x)) x)))
                  (loaded_rows (self w)) /\
            forall r, (r < next (heap w))%nat -> frames h' r = frames (heap w) r).
  { destruct Hmain as [cc [h' [Hmain [Hkeys [Hconc [Hfinal Hold]]]]]].
    exists cc. eexists. split; [exact Hmain|]. cbn [self heap stdout].
    repeat split; assumption. }
  unfold main, try_body, and_then, get_self, call, lift, set_all_data, print.
  cbn [fst snd self heap stdout]. rewrite Hfetch, Hconcat.
  unfold alloc. cbn [fst snd self heap stdout credentials_file sheet_id worksheet_names
                     current_month].
  match goal with
  | |- context [create_customer_id ?r ?h] =>
      set (h1 := h);
      destruct (create_customer_id_run r h1) as [h2 [Hcreate [Hnext2 [Hnew2 Hold2]]]]
  end.
  rewrite Hcreate.
  cbn [fst snd self heap stdout credentials_file sheet_id worksheet_names current_month].
  assert (Hid : forall x, In x (frames h2 (next h1)) -> Customer_ID x <> None).
  { rewrite Hnew2. intros y Hy. apply in_map_iff in Hy. destruct Hy as [x [<- _]].
    discriminate. }
  destruct (pipeline_succeeds (current_month (self w)) (next h1) h2 Hid)
    as [mv [rec [cc [h3 [Hvisits [Hrec [Hcat [Hkeys [Hnext3 [Hnew3 Hold3]]]]]]]]]].
  rewrite Hvisits.
  cbn [fst snd self heap stdout credentials_file sheet_id worksheet_names current_month].
  rewrite Hrec.
  cbn [fst snd self heap stdout credentials_file sheet_id worksheet_names current_month].
  rewrite Hcat.
  exists cc, h3. split; [reflexivity|]. split; [exact Hkeys|].
  assert (Hh1 : frames h1 (next (heap w)) = loaded_rows (self w)).
  { unfold h1. cbn. now rewrite Nat.eqb_refl. }
  assert (Hn1 : next h1 = S (next (heap w))) by reflexivity.
  rewrite Hn1 in *.
  split; [|split].
  - rewrite Hold3 by lia. rewrite Hold2 by lia. exact Hh1.
  - rewrite Hnew3, Hnew2, Hh1, map_map. reflexivity.
  - intros r Hr. rewrite Hold3 by lia. rewrite Hold2 by lia.
    unfold h1. cbn. assert (Hne : Nat.eqb r (next (heap w)) = false)
      by (apply Nat.eqb_neq; lia). now rewrite Hne.
Qed.

End MainFacts.

Lemma load_failure_witness :
  let w := Worksheets.start ["Navis Cafe"; "Harbor Bakery"; "Two Fat Cats"] in
  @Main.main plain_text Worksheets.two_sheets w
  = Main.mkProcess (Main.self w) (Main.heap w)
      ["Error: Worksheet not found: Harbor Bakery"] /\
  @Main.main plain_text Worksheets.two_sheets (Worksheets.start [])
  = Main.mkProcess (Main.self (Worksheets.start [])) (Main.heap (Worksheets.start []))
      ["Error: No objects to concatenate"].
Proof.
  intros w. split.
  - apply (proj1 (load_failure (H := plain_text) (H0 := Worksheets.two_sheets) w)
             ["Navis Cafe"] "Harbor Bakery" ["Two Fat Cats"]
             "Worksheet not found: Harbor Bakery").
    + reflexivity.
    + intros n' [<-|[]]. eexists. reflexivity.
    + reflexivity.
  - apply (proj2 (load_failure (H := plain_text) (H0 := Worksheets.two_sheets)
                    (Worksheets.start []))).
    reflexivity.
Defined.

Lemma load_success_witness :
  let w := Worksheets.start ["Navis Cafe"; "Two Fat Cats"; "Navis Cafe"] in
  exists customer_categories w',
    @Main.main plain_text Worksheets.two_sheets w = w' /\
    Main.self w' = Loaded.with_all_data (Main.self w) 1%nat /\
    Main.stdout w' = ["Customer Categories: " ++ Main.str_dict customer_categories] /\
    map fst customer_categories = segment_labels /\
    frames (Main.heap w') 0%nat = (two_months ++ sample_parsed)%list /\
    frames (Main.heap w') 1%nat
    = map (fun x => @after_visits plain_text
                      (set_Customer_ID (@identity plain_text x)
                         (set_last_4_card_digits
                            (@fillna_astype_str plain_text (Last_4_Card_Digits x)) x)))
          (two_months ++ sample_parsed)%list /\
    forall r, (r < 0)%nat -> frames (Main.heap w') r = frames (Main.heap w) r.
Proof.
  intros w.
  apply (load_success (H := plain_text) (H0 := Worksheets.two_sheets) w).
  - discriminate.
  - intros n [<-|[<-|[<-|[]]]]; eexists; reflexivity.
  - discriminate.
Defined.

(** ** Copies *)

Section Copies.
Context `{Pandas}.

(** X13.  [create_customer_id] returns a new frame and changes none that
    was there.  The new frame has the rows of the frame it was given, with
    the ingested columns and the [Month] column as they were, and with an
    identity in every row. *)
Theorem create_customer_id_adds_columns (all_data : ref) (s : store) :
  frames s all_data <> [] ->
  exists s',
    create_customer_id all_data s = (Ok (next s), s') /\
    next s' = S (next s) /\
    (forall r, r <> next s -> frames s' r = frames s r) /\
    List.length (frames s' (next s)) = List.length (frames s all_data) /\
    map Paid_Date (frames s' (next s)) = map Paid_Date (frames s all_data) /\
    map Amount (frames s' (next s)) = map Amount (frames s all_data) /\
    map Type_ (frames s' (next s)) = map Type_ (frames s all_data) /\
    map Last_4_Card_Digits (frames s' (next s)) = map Last_4_Card_Digits (frames s all_data) /\
    map Month (frames s' (next s)) = map Month (frames s all_data) /\
    forall x, In x (frames s' (next s)) ->
              Customer_ID x <> None /\ last_4_card_digits x <> None.
Proof.
  intros _.
  destruct (create_customer_id_run all_data s) as [s' [Hrun [Hnext [Hnew Hold]]]].
  exists s'. split; [exact Hrun|]. split; [exact Hnext|]. split; [exact Hold|].
  rewrite Hnew, length_map, !map_map. cbn.
  repeat (split; [reflexivity|]).
  intros y Hy. apply in_map_iff in Hy. destruct Hy as [x [<- _]]. cbn.
  split; discriminate.
Qed.

(** X14.  A [MonetaryValue] object works on a copy of the frame it is
    constructed from: the copy starts equal to the frame, and after
    [calculate_monetary_value] the copy holds the amounts as numbers while
    the frame that was passed in is as it was. *)
Theorem monetary_value_private_copy (all_data : ref) (s : store) :
  all_data <> next s ->
  let w := construct all_data s in
  let w1 := snd (calculate_monetary_value w) in
  MonetaryValue.all_data (self w) = next s /\
  frames (heap w) (next s) = frames s all_data /\
  frames (heap w) all_data = frames s all_data /\
  frames (heap w1) all_data = frames s all_data /\
  frames (heap w1) (next s)
  = map (fun x => set_Amount (to_numeric (Amount x)) x) (frames s all_data).
Proof.
  intros Hne w w1. subst w1 w. unfold construct.
  destruct (init_run all_data s) as [s' [Hrun [_ [Hnew Hold]]]].
  rewrite Hrun. cbn [self heap MonetaryValue.all_data].
  split; [reflexivity|]. split; [exact Hnew|]. split; [now apply Hold|].
  rewrite calculate_monetary_value_run. cbn [self heap MonetaryValue.all_data].
  assert (Hneb : Nat.eqb all_data (next s) = false) by now apply Nat.eqb_neq.
  destruct (apply_rows _ _); cbn [snd heap update frames];
    rewrite Hneb, Nat.eqb_refl, Hnew; (split; [now apply Hold | reflexivity]).
Qed.

End Copies.

Lemma create_customer_id_adds_columns_witness :
  let s := store_of sample_data in
  exists s',
    @create_customer_id plain_text 0%nat s = (Ok 1%nat, s') /\
    next s' = 2%nat /\
    (forall r, r <> 1%nat -> frames s' r = frames s r) /\
    List.length (frames s' 1%nat) = 3%nat /\
    map Paid_Date (frames s' 1%nat) = map Paid_Date sample_data /\
    map Amount (frames s' 1%nat) = map Amount sample_data /\
    map Type_ (frames s' 1%nat) = map Type_ sample_data /\
    map Last_4_Card_Digits (frames s' 1%nat) = map Last_4_Card_Digits sample_data /\
    map Month (frames s' 1%nat) = map Month sample_data /\
    forall x, In x (frames s' 1%nat) -> Customer_ID x <> None /\ last_4_card_digits x <> None.
Proof.
  intros s.
  apply (create_customer_id_adds_columns (H := plain_text) 0%nat s). discriminate.
Defined.

Lemma monetary_value_private_copy_witness :
  let s := store_of test_data in
  let w := construct 0%nat s in
  let w1 := snd (@calculate_monetary_value plain_text w) in
  MonetaryValue.all_data (self w) = 1%nat /\
  frames (heap w) 1%nat = test_data /\
  frames (heap w) 0%nat = test_data /\
  frames (heap w1) 0%nat = test_data /\
  frames (heap w1) 1%nat
  = map (fun x => set_Amount (@to_numeric plain_text (Amount x)) x) test_data.
Proof.
  intros s.
  apply (monetary_value_private_copy (H := plain_text) 0%nat s). discriminate.
Defined.

(** ** Identities *)

Section Identities.
Context `{Pandas}.

(** A text with the separator in it is not all digits, wherever the
    separator comes. *)
Lemma separator_is_no_digit (a rest : string) (pending : option (Z * nat)) :
  all_digits_from pending (a ++ "|" ++ rest) = false.
Proof.
  revert pending. induction a as [|c a IH]; intros pending.
  - destruct pending as [[code more]|]; reflexivity.
  - cbn [append all_digits_from]. destruct pending as [[code more]|].
    + destruct ((128 <=? Z.of_nat (nat_of_ascii c)) && (Z.of_nat (nat_of_ascii c) <? 192));
        [|reflexivity].
      destruct more; [rewrite IH; apply andb_false_r | apply IH].
    + repeat match goal with
             | |- (if ?b then _ else _) = false => destruct b
             end; rewrite ?IH; auto using andb_false_r.
Qed.

Lemma isdigit_separator (a rest : string) : isdigit (a ++ "|" ++ rest) = false.
Proof.
  unfold isdigit. destruct (a ++ "|" ++ rest) eqn:E; [reflexivity|].
  rewrite <- E. apply separator_is_no_digit.
Qed.

(** X15.  The identity of a row with a usable card suffix is all digits,
    and the identity made of timestamp, amount and type never is, because
    of its separators: a card holder and a customer without a usable card
    suffix never get the same identity. *)
Theorem card_and_composite_identities_differ (x y : Row) :
  usable_card_suffix x = true -> usable_card_suffix y = false ->
  isdigit (identity x) = true /\
  isdigit (identity y) = false /\
  identity x <> identity y.
Proof.
  intros Hx Hy.
  assert (H1 : isdigit (identity x) = true).
  { unfold identity. rewrite Hx. unfold usable_card_suffix in Hx.
    now apply andb_true_iff in Hx. }
  assert (H2 : isdigit (identity y) = false).
  { unfold identity. rewrite Hy. unfold composite_key. apply isdigit_separator. }
  split; [exact H1|]. split; [exact H2|]. intros Heq. rewrite Heq in H1. congruence.
Qed.

End Identities.

Lemma card_and_composite_identities_differ_witness :
  let x := ingested (CStr "2024-10-01 10:00:00") (CStr "25.00") (CStr "Credit") (CStr "1234") in
  let y := ingested (CStr "1") (CStr "2") (CStr "3") (CStr "") in
  @isdigit plain_text (@identity plain_text x) = true /\
  @isdigit plain_text (@identity plain_text y) = false /\
  @identity plain_text x <> @identity plain_text y.
Proof.
  intros x y.
  apply (card_and_composite_identities_differ (H := plain_text) x y); reflexivity.
Defined.

(** ** The left join *)

Lemma unique_match (recency_data : list RecencyRow) (c : string) :
  NoDup (map r_Customer_ID recency_data) ->
  (List.length (filter (fun r => String.eqb (r_Customer_ID r) c) recency_data) <= 1)%nat.
Proof.
  induction recency_data as [|r rec IH]; intros Hnd; [cbn; lia|].
  cbn [map] in Hnd. inversion Hnd as [|? ? Hnotin Hnd']; subst.
  cbn [filter]. destruct (String.eqb (r_Customer_ID r) c) eqn:E.
  - apply String.eqb_eq in E. subst c.
    assert (Hnone : filter (fun r' => String.eqb (r_Customer_ID r') (r_Customer_ID r)) rec = []).
    { clear IH Hnd Hnd'. induction rec as [|r' rec IH]; [reflexivity|].
      cbn [filter]. destruct (String.eqb (r_Customer_ID r') (r_Customer_ID r)) eqn:E'.
      - apply String.eqb_eq in E'. exfalso. apply Hnotin. cbn. now left.
      - apply IH. intros Hin. apply Hnotin. now right. }
    rewrite Hnone. cbn. lia.
  - now apply IH.
Qed.

(** X16.  The merge of [categorize_customers] is a left join: every row of
    the visit frame is in the joined frame and every joined row comes from
    one; a joined row holds the recency of a recency row of its customer,
    or [NaT] when the customer has none; and when the recency frame has at
    most one row per customer, the joined frame has the rows of the visit
    frame, one for one and in their order. *)
Theorem left_join_keeps_visits (frequency_data : list VisitRow)
    (recency_data : list RecencyRow) :
  (forall v, In v frequency_data <-> In v (map fst (merge_left frequency_data recency_data))) /\
  (forall v c, In (v, c) (merge_left frequency_data recency_data) ->
     In (mkRecency (v_Customer_ID v) c) recency_data \/
     (c = CNaT /\ ~ In (v_Customer_ID v) (map r_Customer_ID recency_data))) /\
  (NoDup (map r_Customer_ID recency_data) ->
   map fst (merge_left frequency_data recency_data) = frequency_data).
Proof.
  pose (matches := fun v : VisitRow =>
         filter (fun r => String.eqb (r_Customer_ID r) (v_Customer_ID v)) recency_data).
  pose (joined := fun v : VisitRow =>
         match matches v with
         | [] => [(v, CNaT)]
         | ms => map (fun r => (v, Recency r)) ms
         end).
  assert (Hmerge : forall freq, merge_left freq recency_data = flat_map joined freq)
    by reflexivity.
  assert (Hmatch : forall v r, In r (matches v) <->
                               In r recency_data /\ r_Customer_ID r = v_Customer_ID v).
  { intros v r. unfold matches. rewrite filter_In, String.eqb_eq. reflexivity. }
  assert (Hfst : forall v p, In p (joined v) -> fst p = v).
  { intros v p Hp. unfold joined in Hp. destruct (matches v) as [|r ms].
    - destruct Hp as [<-|[]]. reflexivity.
    - apply in_map_iff in Hp. destruct Hp as [r' [<- _]]. reflexivity. }
  assert (Hne : forall v, exists p, In p (joined v)).
  { intros v. unfold joined. destruct (matches v) as [|r ms].
    - eexists. now left.
    - eexists. now left. }
  assert (Hrow : forall v p, In p (joined v) ->
            In (mkRecency (v_Customer_ID v) (snd p)) recency_data \/
            (snd p = CNaT /\ ~ In (v_Customer_ID v) (map r_Customer_ID recency_data))).
  { intros v p Hp. unfold joined in Hp. specialize (Hmatch v).
    destruct (matches v) as [|r ms].
    - destruct Hp as [<-|[]]. right. split; [reflexivity|].
      intros Hc. apply in_map_iff in Hc. destruct Hc as [r [Hr1 Hr2]].
      apply (proj2 (Hmatch r)). split; assumption.
    - left. apply in_map_iff in Hp. destruct Hp as [r' [<- Hr']].
      apply Hmatch in Hr'. destruct Hr' as [Hm1 Hm2]. cbn [snd].
      rewrite <- Hm2. now destruct r'. }
  assert (Hone : NoDup (map r_Customer_ID recency_data) ->
                 forall v, map fst (joined v) = [v]).
  { intros Hnd v.
    pose proof (unique_match recency_data (v_Customer_ID v) Hnd) as Hlen.
    fold (matches v) in Hlen. unfold joined.
    destruct (matches v) as [|r [|r' ms]]; cbn in Hlen |- *; [reflexivity | reflexivity | lia]. }
  rewrite !Hmerge. clearbody joined. split; [|split].
  - intros v. rewrite in_map_iff. split.
    + intros Hv. destruct (Hne v) as [p Hp]. exists p. split; [now apply (Hfst v)|].
      apply in_flat_map. exists v. split; assumption.
    + intros [p [Hfp Hp]]. apply in_flat_map in Hp. destruct Hp as [v' [Hv' Hp']].
      apply Hfst in Hp'. congruence.
  - intros v c Hin. apply in_flat_map in Hin. destruct Hin as [v' [_ Hp]].
    pose proof (Hfst v' _ Hp) as Hv. cbn in Hv. subst v'.
    exact (Hrow v _ Hp).
  - intros Hnd. induction frequency_data as [|v freq IH]; [reflexivity|].
    cbn [flat_map]. rewrite map_app, IH, (Hone Hnd). reflexivity.
Qed.

Lemma left_join_keeps_visits_witness :
  let frequency_data := [mkVisit "1234" 9 1; mkVisit "1234" 10 1; mkVisit "5678" 9 2] in
  let recency_data := [mkRecency "1234" (CTime oct_1)] in
  map fst (merge_left frequency_data recency_data) = frequency_data /\
  (In (mkRecency "5678" CNaT) recency_data \/
   (CNaT = CNaT /\ ~ In "5678" (map r_Customer_ID recency_data))).
Proof.
  intros frequency_data recency_data.
  destruct (left_join_keeps_visits frequency_data recency_data) as [_ [Hrow Hone]].
  split.
  - apply Hone. cbn. repeat constructor. intros [].
  - apply (Hrow (mkVisit "5678" 9 2) CNaT). cbn. tauto.
Defined.

Lemma categories_total_witness :
  let frequency_data := [mkVisit "1234" 9 1; mkVisit "1234" 10 1; mkVisit "5678" 9 2] in
  let recency_data := [mkRecency "1234" (CTime oct_1)] in
  let d := [("Active Regular", 0); ("Inactive Regular", 0);
            ("Active Occasional", 2); ("Inactive Occasional", 1)] in
  map fst d = segment_labels /\
  dict_total d = Z.of_nat (List.length (merge_left frequency_data recency_data)).
Proof.
  intros frequency_data recency_data d.
  apply (categories_total 10 frequency_data recency_data d). reflexivity.
Defined.
